(** * Uroflowmetry acquisition and session engine (GUI_V11.py)

    A shallow embedding of the acquisition-and-session part of
    [UroflowmetryApp]: the periodic [update_plot] tick, the [Start], [Stop],
    [Clear] and [Save] button callbacks, and the report export
    ([save_data]/[submit], [generate_pdf], [save_plots]).

    Python objects are modelled by value:
    - the attributes of [self] and the pieces of the environment the callbacks
      touch (log file, console, message boxes, files, database, Tk timer) are
      the fields of one record [App], threaded through a state-and-exception
      monad in which a raised exception keeps the mutations made before it;
    - [bytes] are lists of [byte], [str] is a list of code points;
    - the builtin [float] type, the conversion [float(s)] and the subtraction
      of two floats are parameters of the development (section [Engine]);
      module [Float64] instantiates them with binary64 numbers to run
      scenarios;
    - what SQLite, matplotlib, reportlab and the file system answer while a
      form is submitted is a record [host] that comes with the submission;
      the database is the list of the INSERT statements run, each with the
      values bound to it.

    Not modelled: widget layout, axes limits and canvas redraws, the rows
    shown in the history list, and the info-level log records (the log is
    configured at level ERROR, so they are never written). *)

From Stdlib Require Import Strings.String Strings.Ascii Strings.Byte.
From Stdlib Require Import List ZArith NArith Bool Lia.
From Stdlib Require Import Sorting.Sorted.
From Stdlib Require Import Floats.
From Stdlib Require Uint63.
Import ListNotations.
Local Open Scope list_scope.

Set Implicit Arguments.

(** ** Text: [bytes], [str] and the string builtins used by [update_plot] *)

Definition bytes := list byte.
Definition str := list N.

Definition bytes_of_string (s : string) : bytes := list_byte_of_string s.
Definition str_of_string (s : string) : str := map Byte.to_N (list_byte_of_string s).

Definition in_range (lo hi c : N) : bool := ((lo <=? c) && (c <=? hi))%N.

(** Continuation byte 0x80..0xBF. *)
Definition utf8_cont (b : N) : bool := in_range 128 191 b.

(** Second byte of a three-byte sequence: no overlong forms (E0), no
    surrogates (ED). *)
Definition utf8_second3 (b0 b1 : N) : bool :=
  if (b0 =? 224)%N then in_range 160 191 b1
  else if (b0 =? 237)%N then in_range 128 159 b1
  else utf8_cont b1.

(** Second byte of a four-byte sequence: no overlong forms (F0), nothing
    above U+10FFFF (F4). *)
Definition utf8_second4 (b0 b1 : N) : bool :=
  if (b0 =? 240)%N then in_range 144 191 b1
  else if (b0 =? 244)%N then in_range 128 143 b1
  else utf8_cont b1.

(** [bytes.decode('utf-8')] with the default [errors='strict'], on the byte
    values; [None] is [UnicodeDecodeError]. *)
Fixpoint utf8_decode (bs : list N) : option str :=
  match bs with
  | [] => Some []
  | b0 :: r0 =>
      if (b0 <? 128)%N then option_map (cons b0) (utf8_decode r0)
      else if in_range 194 223 b0 then
        match r0 with
        | b1 :: r1 =>
            if utf8_cont b1
            then option_map (cons ((b0 - 192) * 64 + (b1 - 128))%N) (utf8_decode r1)
            else None
        | _ => None
        end
      else if in_range 224 239 b0 then
        match r0 with
        | b1 :: b2 :: r2 =>
            if utf8_second3 b0 b1 && utf8_cont b2
            then option_map
                   (cons ((b0 - 224) * 4096 + (b1 - 128) * 64 + (b2 - 128))%N)
                   (utf8_decode r2)
            else None
        | _ => None
        end
      else if in_range 240 244 b0 then
        match r0 with
        | b1 :: b2 :: b3 :: r3 =>
            if utf8_second4 b0 b1 && utf8_cont b2 && utf8_cont b3
            then option_map
                   (cons ((b0 - 240) * 262144 + (b1 - 128) * 4096
                          + (b2 - 128) * 64 + (b3 - 128))%N)
                   (utf8_decode r3)
            else None
        | _ => None
        end
      else None
  end.

Definition decode (raw : bytes) : option str := utf8_decode (map Byte.to_N raw).

(** The characters [str.strip()] removes: those for which [str.isspace] holds. *)
Definition isspace (c : N) : bool :=
  in_range 9 13 c || in_range 28 32 c || (c =? 133)%N || (c =? 160)%N
  || (c =? 5760)%N || in_range 8192 8202 c || (c =? 8232)%N || (c =? 8233)%N
  || (c =? 8239)%N || (c =? 8287)%N || (c =? 12288)%N.

Fixpoint lstrip (s : str) : str :=
  match s with
  | c :: s' => if isspace c then lstrip s' else s
  | [] => []
  end.

Definition rstrip (s : str) : str := rev (lstrip (rev s)).

Definition strip (s : str) : str := rstrip (lstrip s).

(** [s.split(sep)] for a one-character separator: never an empty list, and
    the empty string splits into one empty field. *)
Fixpoint split (sep : N) (s : str) : list str :=
  match s with
  | [] => [[]]
  | c :: s' =>
      if (c =? sep)%N then [] :: split sep s'
      else match split sep s' with
           | w :: ws => (c :: w) :: ws
           | [] => [[c]]
           end
  end.

Definition comma : N := 44.
Definition newline : byte := "010"%byte.

(** ** The serial port (pyserial's [Serial] object) *)

Record Serial := mkSerial {
  is_open : bool;
  rx : bytes;   (* bytes received from the device and not read yet *)
  tx : bytes    (* bytes written to the device so far *)
}.

Definition in_waiting (p : Serial) : nat := length (rx p).

(** The bytes up to and including the first newline; when the buffer holds
    no newline the read times out and returns what is there. *)
Fixpoint take_line (buf : bytes) : bytes * bytes :=
  match buf with
  | [] => ([], [])
  | b :: buf' =>
      if Byte.eqb b newline then ([b], buf')
      else let (l, rest) := take_line buf' in (b :: l, rest)
  end.

Definition readline (p : Serial) : bytes * Serial :=
  let (l, rest) := take_line (rx p) in
  (l, mkSerial (is_open p) rest (tx p)).

Definition receive (data : bytes) (p : Serial) : Serial :=
  mkSerial (is_open p) (rx p ++ data) (tx p).

Definition close (p : Serial) : Serial := mkSerial false (rx p) (tx p).

(** ** Exceptions *)

Inductive exn :=
| UnicodeDecodeError                (* bytes.decode *)
| ValueError_float (field : str)    (* float(field) *)
| ValueError_unpack                 (* y1, y2 = ... with another arity *)
| ValueError_fields                 (* "All fields are required" *)
| ValueError_shape                  (* plt.plot with series of different lengths *)
| AttributeError_start_time         (* self.start_time read before any Start *)
| OSError_image (name : string)     (* Image(file) on a missing file *)
| PortNotOpenError                  (* Serial.write on a closed port *)
| OverflowError_int                 (* an int bound to SQLite beyond 64 bits *)
| OperationalError                  (* sqlite3: the database cannot be opened,
                                       or the statement cannot be run *)
| ValueError_markup (text : string) (* Paragraph on markup its parser rejects *)
| OSError_create (name : string).   (* a file that cannot be created *)

(** ** The form filled in by the operator on Save *)

Record form := mkForm {
  first_name : string;
  last_name : string;
  age_patient : Z;
  patient_id_num : string;
  gender_patient : string;
  doctor_first_name : string;
  doctor_last_name : string;
  hospital_name : string;
  hospital_address : string
}.

Definition nonempty (s : string) : bool :=
  match s with EmptyString => false | _ => true end.

(** What the surroundings answer during one submission of the form, in
    the order the submission asks: whether SQLite opens the database and
    runs the INSERT, whether each figure is drawn and saved under its
    name, whether reportlab's paragraph parser accepts each of the two
    header texts as markup, whether the report is built and written under
    its name, and the exception, if any, that stops the refresh of the
    history list. *)
Record host := mkHost {
  connect_ok : bool;
  insert_ok : bool;
  flow_creatable : bool;
  volume_creatable : bool;
  hospital_markup_ok : bool;
  address_markup_ok : bool;
  report_creatable : bool;
  history_error : option exn
}.

Definition history_ok (h : host) : bool :=
  match history_error h with None => true | Some _ => false end.

(** Nothing fails. *)
Definition host_ok (h : host) : bool :=
  connect_ok h && insert_ok h && flow_creatable h && volume_creatable h
  && hospital_markup_ok h && address_markup_ok h && report_creatable h
  && history_ok h.

(** [except sqlite3.OperationalError] *)
Definition is_operational (e : exn) : bool :=
  match e with OperationalError => true | _ => false end.

(** An [int] SQLite can store. *)
Definition int64 (z : Z) : bool := (- 2 ^ 63 <=? z)%Z && (z <? 2 ^ 63)%Z.

(** ** A binary64 instance of the float parameters

    [float_of_str] is [float(s)] for a string: characters outside ASCII
    are brought to ASCII (white space to a space, a decimal digit of any
    script to its ASCII digit), white space around the text is dropped,
    single underscores between digits are removed, and the text must then
    be, after an optional sign, [inf], [infinity] or [nan] in any case, or
    a decimal number [digits[.digits]] or [.digits] with an optional
    exponent; the value is the nearest binary64 number, ties to even,
    infinite beyond the range. [None] is [ValueError].

    The decimal digits are those of Unicode 15.0 (Python 3.12); the table
    of an interpreter built on another version of Unicode differs in the
    scripts added since. *)
Module Float64.

(** The zero of each run of ten decimal digits (Unicode 15.0). *)
Definition decimal_zeros : list N :=
  [0x30; 0x660; 0x6F0; 0x7C0; 0x966; 0x9E6; 0xA66; 0xAE6; 0xB66; 0xBE6;
   0xC66; 0xCE6; 0xD66; 0xDE6; 0xE50; 0xED0; 0xF20; 0x1040; 0x1090; 0x17E0;
   0x1810; 0x1946; 0x19D0; 0x1A80; 0x1A90; 0x1B50; 0x1BB0; 0x1C40; 0x1C50;
   0xA620; 0xA8D0; 0xA900; 0xA9D0; 0xA9F0; 0xAA50; 0xABF0; 0xFF10; 0x104A0;
   0x10D30; 0x11066; 0x110F0; 0x11136; 0x111D0; 0x112F0; 0x11450; 0x114D0;
   0x11650; 0x116C0; 0x11730; 0x118E0; 0x11950; 0x11C50; 0x11D50; 0x11DA0;
   0x11F50; 0x16A60; 0x16AC0; 0x16B50; 0x1D7CE; 0x1D7D8; 0x1D7E2; 0x1D7EC;
   0x1D7F6; 0x1E140; 0x1E2F0; 0x1E4F0; 0x1E950; 0x1FBF0]%N.

Definition decimal (c : N) : option N :=
  option_map (fun z => c - z)%N
             (find (fun z => in_range z (z + 9) c) decimal_zeros).

(** Non-ASCII white space becomes a space and a decimal digit of any
    script its ASCII digit; any other non-ASCII character has no place in
    a number. *)
Fixpoint to_ascii (s : str) : option str :=
  match s with
  | [] => Some []
  | c :: s' =>
      if (c <? 128)%N then option_map (cons c) (to_ascii s')
      else if isspace c then option_map (cons 32%N) (to_ascii s')
      else match decimal c with
           | Some d => option_map (cons (48 + d)%N) (to_ascii s')
           | None => None
           end
  end.

(** White space of the C locale. *)
Definition c_isspace (c : N) : bool := in_range 9 13 c || (c =? 32)%N.

Fixpoint c_lstrip (s : str) : str :=
  match s with
  | c :: s' => if c_isspace c then c_lstrip s' else s
  | [] => []
  end.

Definition c_strip (s : str) : str := rev (c_lstrip (rev (c_lstrip s))).

Definition is_digit (c : N) : bool := in_range 48 57 c.

(** Single underscores are allowed between two digits, and removed. *)
Fixpoint drop_underscores (prev : N) (s : str) : option str :=
  match s with
  | [] => if (prev =? 95)%N then None else Some []
  | c :: s' =>
      if (c =? 95)%N then
        if is_digit prev then drop_underscores c s' else None
      else if (prev =? 95)%N && negb (is_digit c) then None
      else option_map (cons c) (drop_underscores c s')
  end.

(** The longest prefix of digits: its value on top of [acc], its length
    added to [n], and the rest of the text. *)
Fixpoint digits (acc : Z) (n : Z) (s : str) : Z * Z * str :=
  match s with
  | c :: s' =>
      if is_digit c then digits (acc * 10 + (Z.of_N c - 48))%Z (n + 1)%Z s'
      else (acc, n, s)
  | [] => (acc, n, [])
  end.

Definition of_Z (z : Z) : float := PrimFloat.of_uint63 (Uint63.of_Z z).

Definition round_half_even (num den : Z) : Z :=
  let (q, r) := Z.div_eucl num den in
  match (2 * r ?= den)%Z with
  | Lt => q
  | Gt => (q + 1)%Z
  | Eq => if Z.even q then q else (q + 1)%Z
  end.

(** The binary64 number nearest to [n / d], ties to even, for positive
    [n] and [d]: a mantissa of 53 bits (fewer for subnormal numbers) and
    its binary exponent. *)
Definition of_ratio (n d : Z) : float :=
  let e0 := (Z.log2 n - Z.log2 d - 52)%Z in
  let q0 := (if 0 <=? e0 then n / (d * 2 ^ e0) else (n * 2 ^ (- e0)) / d)%Z in
  let e1 := (if q0 <? 2 ^ 52 then e0 - 1 else e0)%Z in
  let e := Z.max e1 (-1074) in
  let m := (if 0 <=? e then round_half_even n (d * 2 ^ e)
            else round_half_even (n * 2 ^ (- e)) d)%Z in
  Z.ldexp (of_Z m) e.

(** [m * 10 ^ e10] as a binary64 number, for [m] written with [nd]
    digits. *)
Definition of_decimal (m nd e10 : Z) : float :=
  if (m =? 0)%Z then zero
  else if (310 <? e10)%Z then infinity
  else if (nd + e10 <? -330)%Z then zero
  else if (0 <=? e10)%Z then of_ratio (m * 10 ^ e10) 1
  else of_ratio m (10 ^ (- e10)).

Definition lower (c : N) : N := if in_range 65 90 c then (c + 32)%N else c.

Definition inf_or_nan (s : str) : option float :=
  let w := map lower s in
  if list_eq_dec N.eq_dec w [105; 110; 102]%N then Some infinity
  else if list_eq_dec N.eq_dec w [105; 110; 102; 105; 110; 105; 116; 121]%N
  then Some infinity
  else if list_eq_dec N.eq_dec w [110; 97; 110]%N then Some nan
  else None.

(** The exponent part: nothing, or [e] or [E], an optional sign and at
    least one digit, up to the end of the text. *)
Definition exponent (s : str) : option Z :=
  match s with
  | [] => Some 0%Z
  | c :: s' =>
      if (c =? 101)%N || (c =? 69)%N then
        let '(neg, s'') :=
          match s' with
          | 45%N :: r => (true, r)
          | 43%N :: r => (false, r)
          | _ => (false, s')
          end in
        match digits 0 0 s'' with
        | (x, n, []) => if (0 <? n)%Z then Some (if neg then - x else x)%Z
                        else None
        | _ => None
        end
      else None
  end.

Definition unsigned (s : str) : option float :=
  let '(m, ni, r) := digits 0 0 s in
  let '(m', nf, r') :=
    match r with
    | 46%N :: r1 => digits m 0 r1
    | _ => (m, 0%Z, r)
    end in
  if (0 <? ni + nf)%Z then
    match exponent r' with
    | Some x => Some (of_decimal m' (ni + nf) (x - nf))
    | None => None
    end
  else inf_or_nan s.

(** [float(s)] for a string [s]. *)
Definition float_of_str (s : str) : option float :=
  match to_ascii s with
  | None => None
  | Some a =>
      match drop_underscores 0 (c_strip a) with
      | None => None
      | Some t =>
          match t with
          | 45%N :: r => option_map PrimFloat.opp (unsigned r)
          | 43%N :: r => unsigned r
          | _ => unsigned t
          end
      end
  end.

Definition fsub : float -> float -> float := PrimFloat.sub.

Definition fle (a b : float) : Prop := PrimFloat.leb a b = true.

End Float64.

Section Engine.

(** The builtin float type, [float(s)] ([None] when it raises [ValueError])
    and [a - b] on floats. *)
Variable pyfloat : Type.
Variable float_of_str : str -> option pyfloat.
Variable fsub : pyfloat -> pyfloat -> pyfloat.

(** The text of a value label: the initial ["...: 0 mL"] text, or the last
    sample formatted with [:.2f]. *)
Inductive label :=
| LabelZero
| LabelValue (y : pyfloat).

Inductive log_entry :=
| PlotUpdateError (e : exn)
| PdfError (e : exn)
| ErrorSavingData (e : exn)
| DatabaseError (e : exn)
| ErrorUpdatingHistory (e : exn).

Inductive dialog :=
| ShowError_SaveData (e : exn)
| ShowError_Database (e : exn)
| ShowError_UpdatingHistory (e : exn)
| ShowInfo_Success.

(** What a written file holds: a saved figure is the pair of series that was
    plotted, a report is its header data and the two images it embeds. *)
Inductive artifact :=
| PlotImage (xs ys : list pyfloat)
| PdfReport (f : form) (date : string) (flow volume : list pyfloat * list pyfloat).

Record App := mkApp {
  (* attributes of self *)
  serial_port : option Serial;            (* None: the connection failed *)
  x_data : list pyfloat;
  y1_data : list pyfloat;
  y2_data : list pyfloat;
  is_running : bool;
  start_time : option pyfloat;            (* None: attribute not set yet *)
  line1 : list pyfloat * list pyfloat;
  line2 : list pyfloat * list pyfloat;
  y1_label : label;
  y2_label : label;
  (* Tk *)
  after_pending : nat;                    (* scheduled update_plot callbacks *)
  entry_windows : nat;                    (* open "Save Patient Data" forms *)
  dialogs : list dialog;                  (* message boxes shown, oldest first *)
  (* environment *)
  log : list log_entry;                   (* app.log, oldest first *)
  stdout : list log_entry;                (* print *)
  files : list (string * artifact);       (* latest write first *)
  inserts : list (form * string)          (* the INSERT statements executed on
                                             table patients: the values bound *)
}.

Definition set_serial_port v s :=
  mkApp v (x_data s) (y1_data s) (y2_data s) (is_running s) (start_time s)
        (line1 s) (line2 s) (y1_label s) (y2_label s) (after_pending s)
        (entry_windows s) (dialogs s) (log s) (stdout s) (files s) (inserts s).
Definition set_x_data v s :=
  mkApp (serial_port s) v (y1_data s) (y2_data s) (is_running s) (start_time s)
        (line1 s) (line2 s) (y1_label s) (y2_label s) (after_pending s)
        (entry_windows s) (dialogs s) (log s) (stdout s) (files s) (inserts s).
Definition set_y1_data v s :=
  mkApp (serial_port s) (x_data s) v (y2_data s) (is_running s) (start_time s)
        (line1 s) (line2 s) (y1_label s) (y2_label s) (after_pending s)
        (entry_windows s) (dialogs s) (log s) (stdout s) (files s) (inserts s).
Definition set_y2_data v s :=
  mkApp (serial_port s) (x_data s) (y1_data s) v (is_running s) (start_time s)
        (line1 s) (line2 s) (y1_label s) (y2_label s) (after_pending s)
        (entry_windows s) (dialogs s) (log s) (stdout s) (files s) (inserts s).
Definition set_is_running v s :=
  mkApp (serial_port s) (x_data s) (y1_data s) (y2_data s) v (start_time s)
        (line1 s) (line2 s) (y1_label s) (y2_label s) (after_pending s)
        (entry_windows s) (dialogs s) (log s) (stdout s) (files s) (inserts s).
Definition set_start_time v s :=
  mkApp (serial_port s) (x_data s) (y1_data s) (y2_data s) (is_running s) v
        (line1 s) (line2 s) (y1_label s) (y2_label s) (after_pending s)
        (entry_windows s) (dialogs s) (log s) (stdout s) (files s) (inserts s).
Definition set_line1 v s :=
  mkApp (serial_port s) (x_data s) (y1_data s) (y2_data s) (is_running s)
        (start_time s) v (line2 s) (y1_label s) (y2_label s) (after_pending s)
        (entry_windows s) (dialogs s) (log s) (stdout s) (files s) (inserts s).
Definition set_line2 v s :=
  mkApp (serial_port s) (x_data s) (y1_data s) (y2_data s) (is_running s)
        (start_time s) (line1 s) v (y1_label s) (y2_label s) (after_pending s)
        (entry_windows s) (dialogs s) (log s) (stdout s) (files s) (inserts s).
Definition set_y1_label v s :=
  mkApp (serial_port s) (x_data s) (y1_data s) (y2_data s) (is_running s)
        (start_time s) (line1 s) (line2 s) v (y2_label s) (after_pending s)
        (entry_windows s) (dialogs s) (log s) (stdout s) (files s) (inserts s).
Definition set_y2_label v s :=
  mkApp (serial_port s) (x_data s) (y1_data s) (y2_data s) (is_running s)
        (start_time s) (line1 s) (line2 s) (y1_label s) v (after_pending s)
        (entry_windows s) (dialogs s) (log s) (stdout s) (files s) (inserts s).
Definition set_after_pending v s :=
  mkApp (serial_port s) (x_data s) (y1_data s) (y2_data s) (is_running s)
        (start_time s) (line1 s) (line2 s) (y1_label s) (y2_label s) v
        (entry_windows s) (dialogs s) (log s) (stdout s) (files s) (inserts s).
Definition set_entry_windows v s :=
  mkApp (serial_port s) (x_data s) (y1_data s) (y2_data s) (is_running s)
        (start_time s) (line1 s) (line2 s) (y1_label s) (y2_label s)
        (after_pending s) v (dialogs s) (log s) (stdout s) (files s) (inserts s).
Definition set_dialogs v s :=
  mkApp (serial_port s) (x_data s) (y1_data s) (y2_data s) (is_running s)
        (start_time s) (line1 s) (line2 s) (y1_label s) (y2_label s)
        (after_pending s) (entry_windows s) v (log s) (stdout s) (files s) (inserts s).
Definition set_log v s :=
  mkApp (serial_port s) (x_data s) (y1_data s) (y2_data s) (is_running s)
        (start_time s) (line1 s) (line2 s) (y1_label s) (y2_label s)
        (after_pending s) (entry_windows s) (dialogs s) v (stdout s) (files s) (inserts s).
Definition set_stdout v s :=
  mkApp (serial_port s) (x_data s) (y1_data s) (y2_data s) (is_running s)
        (start_time s) (line1 s) (line2 s) (y1_label s) (y2_label s)
        (after_pending s) (entry_windows s) (dialogs s) (log s) v (files s) (inserts s).
Definition set_files v s :=
  mkApp (serial_port s) (x_data s) (y1_data s) (y2_data s) (is_running s)
        (start_time s) (line1 s) (line2 s) (y1_label s) (y2_label s)
        (after_pending s) (entry_windows s) (dialogs s) (log s) (stdout s) v (inserts s).
Definition set_inserts v s :=
  mkApp (serial_port s) (x_data s) (y1_data s) (y2_data s) (is_running s)
        (start_time s) (line1 s) (line2 s) (y1_label s) (y2_label s)
        (after_pending s) (entry_windows s) (dialogs s) (log s) (stdout s) (files s) v.

(** ** Statements that may raise

    A computation returns a value or an exception, and in both cases the
    state it leaves behind. *)

Definition M (A : Type) : Type := App -> (A + exn) * App.

Definition ret {A} (a : A) : M A := fun s => (inl a, s).
Definition raise {A} (e : exn) : M A := fun s => (inr e, s).
Definition bind {A B} (m : M A) (k : A -> M B) : M B :=
  fun s => match m s with
           | (inl a, s') => k a s'
           | (inr e, s') => (inr e, s')
           end.
Definition try_except {A} (body : M A) (handler : exn -> M A) : M A :=
  fun s => match body s with
           | (inr e, s') => handler e s'
           | r => r
           end.
Definition gets {A} (f : App -> A) : M A := fun s => (inl (f s), s).
Definition modify (f : App -> App) : M unit := fun s => (inl tt, f s).

Notation "x <- m ;; k" := (bind m (fun x => k))
  (at level 61, m at next level, right associativity).
Notation "m ;; k" := (bind m (fun _ => k))
  (at level 61, right associativity).

Fixpoint mapM {A B} (f : A -> M B) (l : list A) : M (list B) :=
  match l with
  | [] => ret []
  | a :: l' => b <- f a ;; bs <- mapM f l' ;; ret (b :: bs)
  end.

(** [float(field)] *)
Definition py_float (field : str) : M pyfloat :=
  match float_of_str field with
  | Some y => ret y
  | None => raise (ValueError_float field)
  end.

(** [logging.error(...)] and [print(...)] *)
Definition logging_error (e : log_entry) : M unit :=
  modify (fun s => set_log (log s ++ [e]) s).
Definition print (e : log_entry) : M unit :=
  modify (fun s => set_stdout (stdout s ++ [e]) s).
Definition show (d : dialog) : M unit :=
  modify (fun s => set_dialogs (dialogs s ++ [d]) s).

(** [self.root.after(100, self.update_plot)] *)
Definition root_after : M unit :=
  modify (fun s => set_after_pending (S (after_pending s)) s).

(** ** Serial port operations on [self.serial_port] *)

(** [Serial.write]: refused on a closed port. *)
Definition write (data : bytes) (p : Serial) : option Serial :=
  if is_open p then Some (mkSerial (is_open p) (rx p) (tx p ++ data)) else None.

(** [bytes.decode('utf-8')] *)
Definition py_decode (raw : bytes) : M str :=
  match decode raw with
  | Some text => ret text
  | None => raise UnicodeDecodeError
  end.

(** Reading the attribute [self.start_time]. *)
Definition self_start_time : M pyfloat :=
  t <- gets start_time ;;
  match t with
  | Some t0 => ret t0
  | None => raise AttributeError_start_time
  end.

(** ** The acquisition tick

    [now] is the value [time.time()] returns if the tick evaluates it. *)
Definition update_plot (now : pyfloat) : M unit :=
  running <- gets is_running ;;
  port <- gets serial_port ;;
  match port with
  | Some p =>
      if running && is_open p then
        try_except
          (if (0 <? in_waiting p)%nat then
             let (raw, p') := readline p in
             modify (set_serial_port (Some p')) ;;
             text <- py_decode raw ;;
             let data := split comma (strip text) in
             if (length data =? 2)%nat then
               ys <- mapM py_float data ;;
               match ys with
               | [y1; y2] =>
                   t0 <- self_start_time ;;
                   let current_time := fsub now t0 in
                   modify (fun s => set_x_data (x_data s ++ [current_time]) s) ;;
                   modify (fun s => set_y1_data (y1_data s ++ [y1]) s) ;;
                   modify (fun s => set_y2_data (y2_data s ++ [y2]) s) ;;
                   modify (fun s => set_line1 (x_data s, y1_data s) s) ;;
                   modify (fun s => set_line2 (x_data s, y2_data s) s) ;;
                   modify (set_y1_label (LabelValue y1)) ;;
                   modify (set_y2_label (LabelValue y2))
               | _ => raise ValueError_unpack
               end
             else ret tt
           else ret tt)
          (fun e => logging_error (PlotUpdateError e) ;; print (PlotUpdateError e))
      else ret tt
  | None => ret tt
  end ;;
  root_after.

(** ** Start, Stop, Clear *)

Definition initialize_plot_data (now : pyfloat) : M unit :=
  modify (set_is_running true) ;;
  modify (set_start_time (Some now)) ;;
  modify (set_x_data []) ;;
  modify (set_y1_data []) ;;
  modify (set_y2_data []) ;;
  modify (set_line1 ([], [])) ;;
  modify (set_line2 ([], [])).

Definition start_command : bytes := bytes_of_string "A".

Definition start_serial_communication : M unit :=
  port <- gets serial_port ;;
  match port with
  | Some p =>
      match write start_command p with
      | Some p' => modify (set_serial_port (Some p'))
      | None => raise PortNotOpenError
      end
  | None => ret tt
  end.

Definition start_action (now : pyfloat) : M unit :=
  initialize_plot_data now ;;
  start_serial_communication.

Definition stop_action : M unit :=
  modify (set_is_running false).

Definition clear_action : M unit :=
  modify (set_x_data []) ;;
  modify (set_y1_data []) ;;
  modify (set_y2_data []) ;;
  modify (set_line1 ([], [])) ;;
  modify (set_line2 ([], [])) ;;
  modify (set_y1_label LabelZero) ;;
  modify (set_y2_label LabelZero).

(** ** Save: the form, the figures and the report *)

Fixpoint lookup (name : string) (fs : list (string * artifact)) : option artifact :=
  match fs with
  | [] => None
  | (n, a) :: fs' => if String.eqb n name then Some a else lookup name fs'
  end.

(** [plt.plot(x, y)] then [plt.savefig(name)]. *)
Definition plot_and_save (creatable : bool) (xs ys : list pyfloat)
                         (name : string) : M unit :=
  if (length xs =? length ys)%nat
  then if creatable
       then modify (fun s => set_files ((name, PlotImage xs ys) :: files s) s)
       else raise (OSError_create name)
  else raise ValueError_shape.

Definition save_plots (h : host) (flow_filename volume_filename : string)
  : M unit :=
  x <- gets x_data ;;
  y1 <- gets y1_data ;;
  plot_and_save (flow_creatable h) x y1 flow_filename ;;
  x <- gets x_data ;;
  y2 <- gets y2_data ;;
  plot_and_save (volume_creatable h) x y2 volume_filename.

(** [Paragraph(f"<center>{text}</center>", style)]: the text is parsed as
    markup when the paragraph is made. *)
Definition paragraph (accepted : bool) (text : string) : M unit :=
  if accepted then ret tt else raise (ValueError_markup text).

(** [Image(name, ...)] as embedded when the document is built. *)
Definition image (name : string) : M (list pyfloat * list pyfloat) :=
  fs <- gets files ;;
  match lookup name fs with
  | Some (PlotImage xs ys) => ret (xs, ys)
  | _ => raise (OSError_image name)
  end.

(** [doc.build(elements)] writing the laid-out document to its file. *)
Definition build (creatable : bool) (filename : string) (doc : artifact)
  : M unit :=
  if creatable
  then modify (fun s => set_files ((filename, doc) :: files s) s)
  else raise (OSError_create filename).

Definition pdf_filename (f : form) : string :=
  (patient_id_num f ++ "_" ++ first_name f ++ "_" ++ last_name f ++ ".pdf")%string.

Definition generate_pdf (h : host) (f : form) (date : string) : M unit :=
  try_except
    (let flow_img := "flow.png"%string in
     let volume_img := "volume.png"%string in
     save_plots h flow_img volume_img ;;
     let filename := pdf_filename f in
     paragraph (hospital_markup_ok h) (hospital_name f) ;;
     paragraph (address_markup_ok h) (hospital_address f) ;;
     flow <- image flow_img ;;
     volume <- image volume_img ;;
     build (report_creatable h) filename (PdfReport f date flow volume))
    (fun e => logging_error (PdfError e) ;; print (PdfError e)).

(** The truth value of [first and last and age and ...]. *)
Definition all_fields (f : form) : bool :=
  nonempty (first_name f) && nonempty (last_name f)
  && negb (age_patient f =? 0)%Z && nonempty (patient_id_num f)
  && nonempty (gender_patient f) && nonempty (doctor_first_name f)
  && nonempty (doctor_last_name f) && nonempty (hospital_name f)
  && nonempty (hospital_address f).

(** [save_data]: opens the form; nothing is read from the buffer yet. *)
Definition save_data : M unit :=
  modify (fun s => set_entry_windows (S (entry_windows s)) s).

(** [with sqlite3.connect(...) as conn: cursor.execute('INSERT INTO
    patients ...', (first, ..., created_at))]: the database is opened, the
    values are bound, the age as a 64-bit integer, then the statement is
    run and committed. What is recorded is the values bound; how SQLite
    stores them in the columns of the table (the id column is declared
    INTEGER) is not modelled. *)
Definition insert_patient (h : host) (f : form) (created_at : string)
  : M unit :=
  if connect_ok h
  then if int64 (age_patient f)
       then if insert_ok h
            then modify (fun s => set_inserts (inserts s ++ [(f, created_at)]) s)
            else raise OperationalError
       else raise OverflowError_int
  else raise OperationalError.

(** [update_history]: the history list is filled again from the table;
    what stops that is caught here, logged and shown. The list itself is
    not modelled. *)
Definition update_history (h : host) : M unit :=
  try_except
    (match history_error h with
     | None => ret tt
     | Some e => raise e
     end)
    (fun e =>
       if is_operational e
       then logging_error (DatabaseError e) ;; show (ShowError_Database e)
       else logging_error (ErrorUpdatingHistory e) ;;
            show (ShowError_UpdatingHistory e)).

(** The form's Save button, for the values [f] its nine variables return.
    [created_at] and [date] are the two renderings of [datetime.now()]. *)
Definition submit (h : host) (f : form) (created_at date : string) : M unit :=
  try_except
    ((if all_fields f then ret tt else raise ValueError_fields) ;;
     insert_patient h f created_at ;;
     generate_pdf h f date ;;
     update_history h ;;
     modify (fun s => set_entry_windows (Nat.pred (entry_windows s)) s) ;;
     show ShowInfo_Success)
    (fun e => logging_error (ErrorSavingData e) ;; show (ShowError_SaveData e)).

Definition close_resources : M unit :=
  port <- gets serial_port ;;
  match port with
  | Some p => if is_open p then modify (set_serial_port (Some (close p))) else ret tt
  | None => ret tt
  end.

(** ** The application as an event-driven machine *)

(** The state [__init__] leaves when the serial connection succeeded: empty
    buffer, not running, one tick scheduled; [fs] and [rows] are the files
    and the INSERT statements of earlier runs. *)
Definition init (fs : list (string * artifact)) (rows : list (form * string)) : App :=
  mkApp (Some (mkSerial true [] [])) [] [] [] false None ([], []) ([], [])
        LabelZero LabelZero 1 0 [] [] [] fs rows.

Inductive event :=
| Tick (now : pyfloat)                        (* the timer fires update_plot *)
| Start (now : pyfloat)
| Stop
| Clear
| Save
| Submit (h : host) (f : form) (created_at date : string)
| Recv (data : bytes).                        (* the device sends bytes *)

(** The state a callback leaves; an exception that escapes it is reported
    by Tk and the main loop goes on. *)
Definition exec (m : M unit) (s : App) : App := snd (m s).

Definition step (e : event) (s : App) : App :=
  match e with
  | Tick now =>
      match after_pending s with
      | O => s
      | S n => exec (update_plot now) (set_after_pending n s)
      end
  | Start now => exec (start_action now) s
  | Stop => exec stop_action s
  | Clear => exec clear_action s
  | Save => exec save_data s
  | Submit h f created_at date =>
      match entry_windows s with
      | O => s
      | S _ => exec (submit h f created_at date) s
      end
  | Recv data =>
      match serial_port s with
      | Some p => if is_open p then set_serial_port (Some (receive data p)) s else s
      | None => s
      end
  end.

Definition run (evs : list event) (s : App) : App :=
  fold_left (fun s e => step e s) evs s.

Definition is_start (e : event) : bool :=
  match e with Start _ => true | _ => false end.

Definition is_submit (e : event) : bool :=
  match e with Submit _ _ _ _ => true | _ => false end.

(** The three series have one length. *)
Definition aligned (s : App) : Prop :=
  length (x_data s) = length (y1_data s) /\ length (y1_data s) = length (y2_data s).

(** ** Closed forms used by the proofs *)

Definition link_open (s : App) : bool :=
  match serial_port s with
  | Some p => is_open p
  | None => false
  end.

(** What one raw line leads to: a sample, a silent discard (another number
    of fields than two), or an exception for the handler of [update_plot]. *)
Inductive decoded :=
| Sample_ok (y1 y2 : pyfloat)
| Skipped
| Rejected (e : exn).

Definition classify (raw : bytes) : decoded :=
  match decode raw with
  | None => Rejected UnicodeDecodeError
  | Some text =>
      match split comma (strip text) with
      | [a; b] =>
          match float_of_str a with
          | None => Rejected (ValueError_float a)
          | Some y1 =>
              match float_of_str b with
              | None => Rejected (ValueError_float b)
              | Some y2 => Sample_ok y1 y2
              end
          end
      | _ => Skipped
      end
  end.

Definition bump (s : App) : App := set_after_pending (S (after_pending s)) s.

Definition report (e : exn) (s : App) : App :=
  set_stdout (stdout s ++ [PlotUpdateError e])
             (set_log (log s ++ [PlotUpdateError e]) s).

Definition append_sample (x y1 y2 : pyfloat) (s : App) : App :=
  set_y2_label (LabelValue y2)
    (set_y1_label (LabelValue y1)
       (set_line2 (x_data s ++ [x], y2_data s ++ [y2])
          (set_line1 (x_data s ++ [x], y1_data s ++ [y1])
             (set_y2_data (y2_data s ++ [y2])
                (set_y1_data (y1_data s ++ [y1])
                   (set_x_data (x_data s ++ [x]) s)))))).

(** The state one tick leaves, before it re-arms the timer. *)
Definition tick_state (now : pyfloat) (s : App) : App :=
  match serial_port s with
  | Some p =>
      if is_running s && is_open p then
        match rx p with
        | [] => s
        | _ :: _ =>
            let s1 := set_serial_port (Some (snd (readline p))) s in
            match classify (fst (readline p)) with
            | Skipped => s1
            | Rejected e => report e s1
            | Sample_ok y1 y2 =>
                match start_time s with
                | Some t0 => append_sample (fsub now t0) y1 y2 s1
                | None => report AttributeError_start_time s1
                end
            end
        end
      else s
  | None => s
  end.

(** The state Start leaves, whatever the port. *)
Definition started (now : pyfloat) (s : App) : App :=
  set_line2 ([], [])
    (set_line1 ([], [])
       (set_y2_data []
          (set_y1_data []
             (set_x_data []
                (set_start_time (Some now) (set_is_running true s)))))).

Definition cleared (s : App) : App :=
  set_y2_label LabelZero
    (set_y1_label LabelZero
       (set_line2 ([], [])
          (set_line1 ([], []) (set_y2_data [] (set_y1_data [] (set_x_data [] s)))))).

(** A complete, well-formed line [a,b] heads the receive buffer of a
    running session: no byte of [a] or [b] is a comma, white space or
    outside ASCII. *)
Definition field_byte (x : byte) : bool :=
  let c := Byte.to_N x in
  (c <? 128)%N && negb (c =? comma)%N && negb (isspace c).

Definition text (a : bytes) : str := map Byte.to_N a.

Definition pending_sample (s : App) (a b rest : bytes) (y1 y2 : pyfloat) : Prop :=
  is_running s = true
  /\ (exists p, serial_port s = Some p /\ is_open p = true
                /\ rx p = a ++ ","%byte :: b ++ newline :: rest)
  /\ forallb field_byte a = true /\ forallb field_byte b = true
  /\ float_of_str (text a) = Some y1 /\ float_of_str (text b) = Some y2.

(** A line the decode step does not accept, with the exception it raises
    inside the tick, if any. *)
Inductive malformed (raw : bytes) : option exn -> Prop :=
| wrong_field_count t :
    decode raw = Some t -> length (split comma (strip t)) <> 2 ->
    malformed raw None
| unparsable_first t a b :
    decode raw = Some t -> split comma (strip t) = [a; b] ->
    float_of_str a = None ->
    malformed raw (Some (ValueError_float a))
| unparsable_second t a b y1 :
    decode raw = Some t -> split comma (strip t) = [a; b] ->
    float_of_str a = Some y1 -> float_of_str b = None ->
    malformed raw (Some (ValueError_float b))
| undecodable :
    decode raw = None -> malformed raw (Some UnicodeDecodeError).


Definition readings (evs : list event) : list pyfloat :=
  flat_map (fun e => match e with Tick t => [t] | _ => [] end) evs.

Definition keeps_buffer (e : event) : bool :=
  match e with
  | Start _ | Clear => false
  | _ => true
  end.

(** The states [submit] can leave: the form not saved with the error
    shown, the report not produced with the error logged, the form closed
    with the success message. *)
Definition save_failed (e : exn) (s : App) : App :=
  set_dialogs (dialogs s ++ [ShowError_SaveData e])
              (set_log (log s ++ [ErrorSavingData e]) s).

Definition refused (s : App) : App := save_failed ValueError_fields s.

Definition pdf_failed (e : exn) (s : App) : App :=
  set_stdout (stdout s ++ [PdfError e]) (set_log (log s ++ [PdfError e]) s).

Definition finished (s : App) : App :=
  set_dialogs (dialogs s ++ [ShowInfo_Success])
              (set_entry_windows (Nat.pred (entry_windows s)) s).

(** The state [generate_pdf] leaves. *)
Definition pdf_state (h : host) (f : form) (date : string) (s : App) : App :=
  if (length (x_data s) =? length (y1_data s))%nat then
    if flow_creatable h then
      let s1 :=
        set_files (("flow.png"%string, PlotImage (x_data s) (y1_data s))
                   :: files s) s in
      if (length (x_data s) =? length (y2_data s))%nat then
        if volume_creatable h then
          let s2 :=
            set_files (("volume.png"%string, PlotImage (x_data s) (y2_data s))
                       :: files s1) s1 in
          if hospital_markup_ok h then
            if address_markup_ok h then
              if report_creatable h then
                set_files
                  ((pdf_filename f,
                    PdfReport f date (x_data s, y1_data s)
                              (x_data s, y2_data s)) :: files s2) s2
              else pdf_failed (OSError_create (pdf_filename f)) s2
            else pdf_failed (ValueError_markup (hospital_address f)) s2
          else pdf_failed (ValueError_markup (hospital_name f)) s2
        else pdf_failed (OSError_create "volume.png") s1
      else pdf_failed ValueError_shape s1
    else pdf_failed (OSError_create "flow.png") s
  else pdf_failed ValueError_shape s.

(** The state [update_history] leaves. *)
Definition history_failed (e : exn) (s : App) : App :=
  if is_operational e
  then set_dialogs (dialogs s ++ [ShowError_Database e])
                   (set_log (log s ++ [DatabaseError e]) s)
  else set_dialogs (dialogs s ++ [ShowError_UpdatingHistory e])
                   (set_log (log s ++ [ErrorUpdatingHistory e]) s).

Definition history_state (h : host) (s : App) : App :=
  match history_error h with
  | None => s
  | Some e => history_failed e s
  end.

(** The state [submit] leaves. *)
Definition submit_state (h : host) (f : form) (created_at date : string)
                        (s : App) : App :=
  if all_fields f then
    if connect_ok h then
      if int64 (age_patient f) then
        if insert_ok h then
          finished
            (history_state h
               (pdf_state h f date
                  (set_inserts (inserts s ++ [(f, created_at)]) s)))
        else save_failed OperationalError s
      else save_failed OverflowError_int s
    else save_failed OperationalError s
  else refused s.

(** What stops the report once the two figures are saved, if anything. *)
Definition report_error (h : host) (f : form) : option exn :=
  if hospital_markup_ok h then
    if address_markup_ok h then
      if report_creatable h then None
      else Some (OSError_create (pdf_filename f))
    else Some (ValueError_markup (hospital_address f))
  else Some (ValueError_markup (hospital_name f)).

(** The number of Start events. *)
Definition starts (evs : list event) : nat := length (filter is_start evs).

(** The plotted lines are the buffer. *)
Definition lines_mirror (s : App) : Prop :=
  line1 s = (x_data s, y1_data s) /\ line2 s = (x_data s, y2_data s).

(** The value labels show the latest sample of the buffer. *)
Definition labels_current (s : App) : Prop :=
  (forall l y, y1_data s = l ++ [y] -> y1_label s = LabelValue y)
  /\ (forall l y, y2_data s = l ++ [y] -> y2_label s = LabelValue y).

(** The record the tick writes when [self.start_time] is missing. *)
Definition start_time_missing : log_entry :=
  PlotUpdateError AttributeError_start_time.

Definition commas (t : str) : nat := count_occ N.eq_dec t comma.

(** Running sessions have a start time, and the log holds no record of a
    missing one. *)
Definition clock_set (s : App) : Prop :=
  (is_running s = true -> start_time s <> None)
  /\ ~ In start_time_missing (log s).

(** [UroflowmetryApp.run]: the main loop, here the events it dispatches,
    then [close_resources] whatever happened. *)
Definition app_run (evs : list event) (s : App) : App :=
  exec close_resources (run evs s).

(** One line of the wire format. *)
Definition wire_line (ab : bytes * bytes) : bytes :=
  fst ab ++ ","%byte :: snd ab ++ [newline].

(** Both fields of a line are free of commas, white space and non-ASCII
    bytes, and convert to the two values. *)
Definition valid_fields (ab : bytes * bytes) (y : pyfloat * pyfloat) : Prop :=
  forallb field_byte (fst ab) = true /\ forallb field_byte (snd ab) = true
  /\ float_of_str (text (fst ab)) = Some (fst y)
  /\ float_of_str (text (snd ab)) = Some (snd y).

(** ** Properties *)

Unset Implicit Arguments.

Lemma length_two (A : Type) (l : list A) :
  (length l =? 2)%nat = true -> exists a b, l = [a; b].
Proof.
  destruct l as [|a [|b [|c l]]]; simpl; try discriminate.
  intros _. now exists a, b.
Qed.

Lemma length_not_two (A : Type) (l : list A) :
  (length l =? 2)%nat = false ->
  match l with [_; _] => False | _ => True end.
Proof.
  destruct l as [|a [|b [|c l]]]; simpl; trivial. discriminate.
Qed.

Lemma update_plot_eq now s :
  update_plot now s = (inl tt, bump (tick_state now s)).
Proof.
  unfold update_plot, tick_state, bind, gets, root_after, modify, try_except.
  destruct (serial_port s) as [p|] eqn:Hp; [|reflexivity].
  destruct (is_running s && is_open p) eqn:Hact; [|reflexivity].
  unfold in_waiting, readline, classify, py_decode.
  destruct (rx p) as [|b0 buf] eqn:Hrx; [reflexivity|].
  change (0 <? length (b0 :: buf))%nat with true. cbv iota.
  destruct (take_line (b0 :: buf)) as [raw rest] eqn:Hline.
  cbn [fst snd].
  destruct (decode raw) as [t|]; [|reflexivity].
  cbn [ret raise].
  destruct (length (split comma (strip t)) =? 2)%nat eqn:Hlen.
  - destruct (length_two _ _ Hlen) as (a & b & ->).
    cbn [mapM]. unfold bind, py_float, ret, raise.
    destruct (float_of_str a) as [y1|]; [|reflexivity].
    destruct (float_of_str b) as [y2|]; [|reflexivity].
    unfold self_start_time, bind, gets. cbn [start_time set_serial_port].
    destruct (start_time s) as [t0|]; reflexivity.
  - apply (length_not_two _ _) in Hlen.
    destruct (split comma (strip t)) as [|a [|b [|c l]]];
      try reflexivity; contradiction.
Qed.

(** *** Reading one well-formed line *)

Lemma field_byte_inv x :
  field_byte x = true ->
  (Byte.to_N x <? 128)%N = true /\ (Byte.to_N x =? comma)%N = false
  /\ isspace (Byte.to_N x) = false /\ Byte.eqb x newline = false.
Proof.
  unfold field_byte. intros H.
  apply andb_prop in H as [H Hs]. apply andb_prop in H as [Ha Hc].
  apply negb_true_iff in Hs, Hc. repeat split; trivial.
  destruct (Byte.eqb x newline) eqn:E; trivial.
  apply Byte.byte_dec_bl in E. subst x. discriminate Hs.
Qed.

Lemma take_line_field a tl :
  forallb field_byte a = true ->
  take_line (a ++ tl) = (a ++ fst (take_line tl), snd (take_line tl)).
Proof.
  induction a as [|x a IH]; simpl; intros H.
  - now destruct (take_line tl).
  - apply andb_prop in H as [Hx Ha].
    destruct (field_byte_inv _ Hx) as (_ & _ & _ & ->).
    rewrite (IH Ha). reflexivity.
Qed.

Lemma take_line_sample a b rest :
  forallb field_byte a = true -> forallb field_byte b = true ->
  take_line (a ++ ","%byte :: b ++ newline :: rest)
  = (a ++ ","%byte :: b ++ [newline], rest).
Proof.
  intros Ha Hb. rewrite (take_line_field _ _ Ha).
  cbn [take_line]. change (Byte.eqb ","%byte newline) with false. cbv iota.
  rewrite (take_line_field _ _ Hb).
  cbn [take_line]. change (Byte.eqb newline newline) with true.
  reflexivity.
Qed.

Lemma utf8_decode_ascii l :
  forallb (fun c => c <? 128)%N l = true -> utf8_decode l = Some l.
Proof.
  induction l as [|c l IH]; simpl; intros H; [reflexivity|].
  apply andb_prop in H as [-> Hl]. now rewrite (IH Hl).
Qed.

Lemma lstrip_head c l : isspace c = false -> lstrip (c :: l) = c :: l.
Proof. simpl. now intros ->. Qed.

Lemma lstrip_clean l :
  forallb (fun c => negb (isspace c)) l = true -> lstrip l = l.
Proof.
  destruct l as [|c l]; simpl; intros H; [reflexivity|].
  apply andb_prop in H as [Hc _]. apply negb_true_iff in Hc. now rewrite Hc.
Qed.

Lemma strip_line l :
  forallb (fun c => negb (isspace c)) l = true -> l <> [] ->
  strip (l ++ [10%N]) = l.
Proof.
  intros Hl Hne. unfold strip, rstrip.
  destruct l as [|c l]; [contradiction|].
  assert (Hc : isspace c = false).
  { simpl in Hl. apply andb_prop in Hl as [Hc _]. now apply negb_true_iff. }
  change ((c :: l) ++ [10%N]) with (c :: (l ++ [10%N])).
  rewrite (lstrip_head _ _ Hc).
  change (c :: l ++ [10%N]) with ((c :: l) ++ [10%N]).
  remember (c :: l) as m eqn:Hm. clear Hm Hne Hc.
  rewrite rev_app_distr.
  change (lstrip (rev [10%N] ++ rev m)) with (lstrip (rev m)).
  rewrite lstrip_clean.
  - apply rev_involutive.
  - rewrite forallb_forall in *. intros x Hx. apply Hl. now apply in_rev.
Qed.

Lemma split_no_sep l :
  forallb (fun c => negb (c =? comma)%N) l = true -> split comma l = [l].
Proof.
  induction l as [|c l IH]; simpl; intros H; [reflexivity|].
  apply andb_prop in H as [Hc Hl]. apply negb_true_iff in Hc.
  now rewrite Hc, (IH Hl).
Qed.

Lemma split_two l1 l2 :
  forallb (fun c => negb (c =? comma)%N) l1 = true ->
  forallb (fun c => negb (c =? comma)%N) l2 = true ->
  split comma (l1 ++ comma :: l2) = [l1; l2].
Proof.
  intros H1 H2. induction l1 as [|c l IH]; simpl.
  - now rewrite (split_no_sep _ H2).
  - simpl in H1. apply andb_prop in H1 as [Hc Hl]. apply negb_true_iff in Hc.
    now rewrite Hc, (IH Hl).
Qed.

Lemma forallb_text (P : N -> bool) a :
  (forall x, field_byte x = true -> P (Byte.to_N x) = true) ->
  forallb field_byte a = true -> forallb P (text a) = true.
Proof.
  intros HP Ha. unfold text. rewrite forallb_forall in *.
  intros c Hc. apply in_map_iff in Hc as (x & <- & Hx). auto.
Qed.

Lemma fields_sample a b :
  forallb field_byte a = true -> forallb field_byte b = true ->
  option_map (fun t => split comma (strip t))
             (decode (a ++ ","%byte :: b ++ [newline]))
  = Some [text a; text b].
Proof.
  intros Ha Hb.
  assert (Hascii : forall l, forallb field_byte l = true ->
                             forallb (fun c => c <? 128)%N (text l) = true).
  { intros l. apply forallb_text. intros x Hx. apply (field_byte_inv _ Hx). }
  assert (Hsp : forall l, forallb field_byte l = true ->
                forallb (fun c => negb (isspace c)) (text l) = true).
  { intros l. apply forallb_text. intros x Hx. apply negb_true_iff.
    apply (field_byte_inv _ Hx). }
  assert (Hco : forall l, forallb field_byte l = true ->
                forallb (fun c => negb (c =? comma)%N) (text l) = true).
  { intros l. apply forallb_text. intros x Hx. apply negb_true_iff.
    apply (field_byte_inv _ Hx). }
  unfold decode. rewrite map_app. cbn [map]. rewrite map_app. cbn [map].
  fold (text a) (text b).
  change (Byte.to_N ","%byte) with comma. change (Byte.to_N newline) with 10%N.
  rewrite utf8_decode_ascii.
  2:{ rewrite forallb_app. cbn [forallb]. rewrite forallb_app. cbn [forallb].
      rewrite (Hascii _ Ha), (Hascii _ Hb). reflexivity. }
  cbn [option_map]. f_equal.
  change (text a ++ comma :: text b ++ [10%N])
    with (text a ++ (comma :: text b) ++ [10%N]).
  rewrite app_assoc, strip_line.
  - apply split_two; auto.
  - rewrite forallb_app. cbn [forallb]. rewrite (Hsp _ Ha), (Hsp _ Hb). reflexivity.
  - destruct (text a); discriminate.
Qed.

Lemma classify_sample a b y1 y2 :
  forallb field_byte a = true -> forallb field_byte b = true ->
  float_of_str (text a) = Some y1 -> float_of_str (text b) = Some y2 ->
  classify (a ++ ","%byte :: b ++ [newline]) = Sample_ok y1 y2.
Proof.
  intros Ha Hb H1 H2. unfold classify.
  pose proof (fields_sample _ _ Ha Hb) as Hf.
  destruct (decode (a ++ ","%byte :: b ++ [newline])) as [t|]; [|discriminate].
  cbn [option_map] in Hf. injection Hf as ->. now rewrite H1, H2.
Qed.

Lemma classify_malformed raw err :
  malformed raw err ->
  classify raw = match err with Some e => Rejected e | None => Skipped end.
Proof.
  unfold classify. intros [t Ht Hn|t a b Ht Hs Ha|t a b y1 Ht Hs Ha Hb|Hd].
  - rewrite Ht. destruct (split comma (strip t)) as [|a [|b [|c l]]];
      try reflexivity. now elim Hn.
  - now rewrite Ht, Hs, Ha.
  - now rewrite Ht, Hs, Ha, Hb.
  - now rewrite Hd.
Qed.

(** The tick on a running session whose receive buffer holds a line. *)
Lemma tick_state_line now s p raw rest :
  is_running s = true -> serial_port s = Some p -> is_open p = true ->
  rx p <> [] -> take_line (rx p) = (raw, rest) ->
  tick_state now s =
  let s1 := set_serial_port (Some (mkSerial true rest (tx p))) s in
  match classify raw with
  | Skipped => s1
  | Rejected e => report e s1
  | Sample_ok y1 y2 =>
      match start_time s with
      | Some t0 => append_sample (fsub now t0) y1 y2 s1
      | None => report AttributeError_start_time s1
      end
  end.
Proof.
  intros Hr Hp Ho Hne Hl. unfold tick_state, readline.
  rewrite Hp, Hr, Ho, Hl. cbn [andb fst snd].
  destruct (rx p); [contradiction|reflexivity].
Qed.

Lemma tick_state_sample now s a b rest y1 y2 t0 p :
  pending_sample s a b rest y1 y2 -> start_time s = Some t0 ->
  serial_port s = Some p ->
  tick_state now s =
  append_sample (fsub now t0) y1 y2
    (set_serial_port (Some (mkSerial true rest (tx p))) s).
Proof.
  intros (Hr & (q & Hq & Ho & Hrx) & Ha & Hb & H1 & H2) Ht Hp.
  rewrite Hp in Hq. injection Hq as <-.
  rewrite (tick_state_line now s p (a ++ ","%byte :: b ++ [newline]) rest);
    trivial.
  - cbv zeta. now rewrite (classify_sample _ _ _ _ Ha Hb H1 H2), Ht.
  - rewrite Hrx. now destruct a.
  - rewrite Hrx. now apply take_line_sample.
Qed.

(** *** The callbacks in closed form *)

Lemma start_action_eq now s :
  start_action now s =
  match serial_port s with
  | Some p =>
      if is_open p
      then (inl tt,
            set_serial_port (Some (mkSerial true (rx p) (tx p ++ start_command)))
                            (started now s))
      else (inr PortNotOpenError, started now s)
  | None => (inl tt, started now s)
  end.
Proof.
  unfold start_action, initialize_plot_data, start_serial_communication,
    bind, gets, modify, write.
  cbn [serial_port set_line2 set_line1 set_y2_data set_y1_data set_x_data
       set_start_time set_is_running].
  destruct (serial_port s) as [p|]; [|reflexivity].
  destruct (is_open p) eqn:Ho; reflexivity.
Qed.

Lemma clear_action_eq s : clear_action s = (inl tt, cleared s).
Proof. reflexivity. Qed.

Lemma stop_action_eq s : stop_action s = (inl tt, set_is_running false s).
Proof. reflexivity. Qed.

(** What every tick may do to the state. *)
Inductive tick_outcome (now : pyfloat) (s : App) : App -> Prop :=
| tick_idle : tick_outcome now s s
| tick_skip p' :
    tick_outcome now s (set_serial_port (Some p') s)
| tick_reject p' e :
    tick_outcome now s (report e (set_serial_port (Some p') s))
| tick_sample p' y1 y2 t0 :
    is_running s = true -> start_time s = Some t0 ->
    tick_outcome now s
      (append_sample (fsub now t0) y1 y2 (set_serial_port (Some p') s)).

Lemma tick_state_outcome now s : tick_outcome now s (tick_state now s).
Proof.
  unfold tick_state.
  destruct (serial_port s) as [p|]; [|constructor].
  destruct (is_running s) eqn:Hr; [|constructor].
  destruct (is_open p); [|constructor]. cbn [andb].
  destruct (rx p); [constructor|].
  destruct (classify _); try constructor.
  destruct (start_time s) eqn:Ht; now constructor.
Qed.

(** Save does not touch the session: the buffer, the status, the clock
    origin, the port and the timer are what they were. *)
Definition same_session (s s' : App) : Prop :=
  x_data s' = x_data s /\ y1_data s' = y1_data s /\ y2_data s' = y2_data s
  /\ is_running s' = is_running s /\ start_time s' = start_time s
  /\ serial_port s' = serial_port s /\ after_pending s' = after_pending s.

Ltac break_ifs :=
  repeat match goal with
         | |- context [if ?c then _ else _] => destruct c
         | |- context [match history_error ?h with _ => _ end] =>
             destruct (history_error h)
         end.

Lemma update_history_eq h s :
  update_history h s = (inl tt, history_state h s).
Proof.
  unfold update_history, history_state, history_failed, try_except, bind,
    modify, show, ret, raise, logging_error.
  destruct (history_error h) as [e|]; [|reflexivity].
  now destruct (is_operational e).
Qed.

Lemma generate_pdf_eq h f date s :
  generate_pdf h f date s = (inl tt, pdf_state h f date s).
Proof.
  unfold generate_pdf, save_plots, plot_and_save, paragraph, build, image,
    try_except, bind, gets, modify, ret, raise, logging_error, print,
    pdf_state, pdf_failed.
  destruct (length (x_data s) =? length (y1_data s))%nat; [|reflexivity].
  destruct (flow_creatable h); [|reflexivity].
  cbn [x_data y1_data y2_data set_files].
  destruct (length (x_data s) =? length (y2_data s))%nat; [|lazy; reflexivity].
  destruct (volume_creatable h); [|lazy; reflexivity].
  destruct (hospital_markup_ok h); [|lazy; reflexivity].
  destruct (address_markup_ok h); [|lazy; reflexivity].
  destruct (report_creatable h); lazy; reflexivity.
Qed.

Lemma submit_eq h f created_at date s :
  submit h f created_at date s = (inl tt, submit_state h f created_at date s).
Proof.
  unfold submit, insert_patient, try_except, bind, modify, show, ret, raise,
    logging_error, submit_state, refused, save_failed.
  destruct (all_fields f); [|reflexivity].
  destruct (connect_ok h); [|reflexivity].
  destruct (int64 (age_patient f)); [|reflexivity].
  destruct (insert_ok h); [|reflexivity].
  now rewrite generate_pdf_eq, update_history_eq.
Qed.

Ltac submit_branches h f c d s :=
  rewrite (submit_eq h f c d s); cbn [snd fst];
  unfold submit_state, history_state, history_failed, pdf_state;
  cbn [x_data y1_data y2_data set_inserts];
  break_ifs.

Lemma generate_pdf_session h f date s :
  same_session s (snd (generate_pdf h f date s))
  /\ fst (generate_pdf h f date s) = inl tt.
Proof.
  rewrite generate_pdf_eq. cbn [fst snd]. split; [|reflexivity].
  unfold same_session, pdf_state. break_ifs; cbn; now repeat split.
Qed.

Lemma submit_session h f created_at date s :
  same_session s (snd (submit h f created_at date s))
  /\ fst (submit h f created_at date s) = inl tt.
Proof.
  split; [|now rewrite submit_eq].
  unfold same_session. submit_branches h f created_at date s;
    cbn; now repeat split.
Qed.

(** *** One event at a time *)

Lemma step_tick now s :
  step (Tick now) s =
  match after_pending s with
  | O => s
  | S n => bump (tick_state now (set_after_pending n s))
  end.
Proof.
  unfold step, exec. destruct (after_pending s); [reflexivity|].
  now rewrite update_plot_eq.
Qed.

Lemma run_cons e evs s : run (e :: evs) s = run evs (step e s).
Proof. reflexivity. Qed.

Ltac tick_cases now s :=
  rewrite step_tick;
  destruct (after_pending s) as [|n] eqn:Hpending;
  [|destruct (tick_state_outcome now (set_after_pending n s))].

Ltac submit_cases h f c d s :=
  unfold step, exec;
  destruct (entry_windows s);
  [|destruct (submit_session h f c d s)
      as [(Hx & Hy1 & Hy2 & Hrun & Ht & Hp & Ha) _]].

Lemma step_start_time e s :
  is_start e = false -> start_time (step e s) = start_time s.
Proof.
  destruct e as [now|now| | | |h f c d|data]; try discriminate; intros _;
    try reflexivity.
  - tick_cases now s; reflexivity.
  - submit_cases h f c d s; [reflexivity|exact Ht].
  - unfold step. destruct (serial_port s) as [p|]; [|reflexivity].
    now destruct (is_open p).
Qed.

Lemma run_start_time evs : forall s,
  forallb (fun e => negb (is_start e)) evs = true ->
  start_time (run evs s) = start_time s.
Proof.
  induction evs as [|e evs IH]; intros s H; [reflexivity|].
  cbn [forallb] in H. apply andb_prop in H as [He Hevs].
  apply negb_true_iff in He.
  now rewrite run_cons, (IH _ Hevs), step_start_time.
Qed.

Lemma step_files e s :
  is_submit e = false -> files (step e s) = files s.
Proof.
  destruct e as [now|now| | | |h f c d|data]; try discriminate; intros _;
    try reflexivity.
  - tick_cases now s; reflexivity.
  - unfold step, exec. rewrite start_action_eq.
    destruct (serial_port s) as [p|]; [|reflexivity].
    now destruct (is_open p).
  - unfold step. destruct (serial_port s) as [p|]; [|reflexivity].
    now destruct (is_open p).
Qed.

Lemma run_files evs : forall s,
  forallb (fun e => negb (is_submit e)) evs = true ->
  files (run evs s) = files s.
Proof.
  induction evs as [|e evs IH]; intros s H; [reflexivity|].
  cbn [forallb] in H. apply andb_prop in H as [He Hevs].
  apply negb_true_iff in He.
  now rewrite run_cons, (IH _ Hevs), step_files.
Qed.

Lemma step_aligned e s : aligned s -> aligned (step e s).
Proof.
  unfold aligned. intros [H1 H2].
  destruct e as [now|now| | | |h f c d|data]; try (split; [exact H1|exact H2]).
  - tick_cases now s; cbn; try (split; [exact H1|exact H2]).
    rewrite !length_app. cbn. split; lia.
  - unfold step, exec. rewrite start_action_eq.
    destruct (serial_port s) as [p|]; [|now split].
    destruct (is_open p); now split.
  - now split.
  - submit_cases h f c d s; [now split|]. rewrite Hx, Hy1, Hy2. now split.
  - unfold step. destruct (serial_port s) as [p|]; [|now split].
    destruct (is_open p); now split.
Qed.

Lemma step_stopped e s :
  keeps_buffer e = true -> is_running s = false ->
  is_running (step e s) = false
  /\ x_data (step e s) = x_data s /\ y1_data (step e s) = y1_data s
  /\ y2_data (step e s) = y2_data s.
Proof.
  intros Hk Hr.
  destruct e as [now|now| | | |h f c d|data]; try discriminate;
    try (now repeat split).
  - tick_cases now s; try (now repeat split).
    cbn in *. congruence.
  - submit_cases h f c d s; [now repeat split|].
    rewrite Hx, Hy1, Hy2, Hrun. now repeat split.
  - unfold step. destruct (serial_port s) as [p|]; [|now repeat split].
    destruct (is_open p); now repeat split.
Qed.

Lemma step_after_pending e s : after_pending (step e s) = after_pending s.
Proof.
  destruct e as [now|now| | | |h f c d|data]; try reflexivity.
  - tick_cases now s; cbn; congruence.
  - unfold step, exec. rewrite start_action_eq.
    destruct (serial_port s) as [p|]; [|reflexivity].
    now destruct (is_open p).
  - submit_cases h f c d s; [reflexivity|exact Ha].
  - unfold step. destruct (serial_port s) as [p|]; [|reflexivity].
    now destruct (is_open p).
Qed.

Lemma run_after_pending evs : forall s,
  after_pending (run evs s) = after_pending s.
Proof.
  induction evs as [|e evs IH]; intros s; [reflexivity|].
  now rewrite run_cons, IH, step_after_pending.
Qed.

(** A non-Start event leaves the elapsed-time series as it is, empties it,
    or (a tick) appends the reading minus the start time. *)
Lemma step_x_data e s :
  is_start e = false ->
  x_data (step e s) = x_data s \/ x_data (step e s) = []
  \/ exists t t0, e = Tick t /\ start_time s = Some t0
                  /\ x_data (step e s) = x_data s ++ [fsub t t0].
Proof.
  destruct e as [now|now| | | |h f c d|data]; try discriminate; intros _;
    try (now left).
  - tick_cases now s; try (now left).
    right; right. exists now, t0. now repeat split.
  - right; now left.
  - submit_cases h f c d s; [now left|]. left. exact Hx.
  - unfold step. destruct (serial_port s) as [p|]; [|now left].
    destruct (is_open p); now left.
Qed.

Lemma step_length e s :
  length (x_data (step e s)) <= length (x_data s) + length (readings [e]).
Proof.
  destruct e as [now|now| | | |h f c d|data]; cbn [readings flat_map length app].
  - tick_cases now s; cbn; rewrite ?length_app; cbn; lia.
  - unfold step, exec. rewrite start_action_eq.
    destruct (serial_port s) as [p|]; [|cbn; lia].
    destruct (is_open p); cbn; lia.
  - cbn. lia.
  - cbn. lia.
  - cbn. lia.
  - submit_cases h f c d s; [lia|]. rewrite Hx. lia.
  - unfold step. destruct (serial_port s) as [p|]; [|lia].
    destruct (is_open p); cbn; lia.
Qed.

Lemma run_length evs : forall s,
  length (x_data (run evs s)) <= length (x_data s) + length (readings evs).
Proof.
  induction evs as [|e evs IH]; intros s; [cbn; lia|].
  rewrite run_cons. specialize (IH (step e s)).
  pose proof (step_length e s) as He.
  assert (Hlen : length (readings (e :: evs))
                 = length (readings [e]) + length (readings evs))
    by (destruct e; reflexivity).
  lia.
Qed.

(** *** Start *)

(** C1 (as amended): when Start is invoked while the device link is not
    open, no LinkUnavailable error exists and the state does change: the
    session becomes Running, [start_time] is the current time and the three
    series are emptied. Nothing is sent; with no port object Start returns
    normally, with a closed port object the write raises the serial
    library's port-not-open error after the state has changed. *)
Theorem start_without_link now s :
  link_open s = false ->
  let r := start_action now s in
  fst r = match serial_port s with
          | Some _ => inr PortNotOpenError
          | None => inl tt
          end
  /\ is_running (snd r) = true /\ start_time (snd r) = Some now
  /\ x_data (snd r) = [] /\ y1_data (snd r) = [] /\ y2_data (snd r) = []
  /\ serial_port (snd r) = serial_port s.
Proof.
  unfold link_open. intros H. cbv zeta. rewrite start_action_eq.
  destruct (serial_port s) as [p|] eqn:Hp.
  - rewrite H. cbn. now rewrite Hp.
  - cbn. now rewrite Hp.
Qed.

(** C5: from every prior state, with the device link open, Start returns
    normally, sets the session Running, records [start_time = now], empties
    the three series and writes the single byte 'A' to the port. The buffer
    is empty when Start returns, so whatever events follow, it holds at most
    one sample per later tick: no sample of before the Start survives. *)
Theorem start_resets_session now s p :
  serial_port s = Some p -> is_open p = true ->
  let r := start_action now s in
  fst r = inl tt
  /\ is_running (snd r) = true /\ start_time (snd r) = Some now
  /\ x_data (snd r) = [] /\ y1_data (snd r) = [] /\ y2_data (snd r) = []
  /\ serial_port (snd r) = Some (mkSerial true (rx p) (tx p ++ ["A"%byte]))
  /\ forall evs, length (x_data (run evs (snd r))) <= length (readings evs).
Proof.
  intros Hp Ho. cbv zeta. rewrite start_action_eq, Hp, Ho. cbn [fst snd].
  repeat split.
  intros evs.
  exact (run_length evs
           (set_serial_port (Some (mkSerial true (rx p) (tx p ++ start_command)))
                            (started now s))).
Qed.

(** C10: Start is accepted while the session is already Running: it raises
    nothing, the session stays Running, the buffer is emptied, [start_time]
    becomes the current time and the start byte is sent again. *)
Theorem start_while_running now s p :
  is_running s = true -> serial_port s = Some p -> is_open p = true ->
  let r := start_action now s in
  fst r = inl tt
  /\ is_running (snd r) = true
  /\ x_data (snd r) = [] /\ y1_data (snd r) = [] /\ y2_data (snd r) = []
  /\ start_time (snd r) = Some now
  /\ (exists p', serial_port (snd r) = Some p' /\ is_open p' = true
                 /\ tx p' = tx p ++ ["A"%byte] /\ rx p' = rx p).
Proof.
  intros _ Hp Ho. cbv zeta. rewrite start_action_eq, Hp, Ho. cbn [fst snd].
  repeat split.
  eexists. split; [reflexivity|]. now repeat split.
Qed.

(** *** The decode step *)

(** C4: a well-formed line [a,b] whose fields convert to [y1] and [y2],
    read by a tick while the session is Running and the link open, appends
    exactly one sample: flow [y1], volume [y2], and elapsed time the
    current time minus the time recorded by the most recent Start. *)
Theorem valid_line_appends_sample s0 t0 evs now a b rest y1 y2 :
  forallb (fun e => negb (is_start e)) evs = true ->
  pending_sample (run evs (step (Start t0) s0)) a b rest y1 y2 ->
  let s := run evs (step (Start t0) s0) in
  let r := update_plot now s in
  fst r = inl tt
  /\ x_data (snd r) = x_data s ++ [fsub now t0]
  /\ y1_data (snd r) = y1_data s ++ [y1]
  /\ y2_data (snd r) = y2_data s ++ [y2]
  /\ option_map rx (serial_port (snd r)) = Some rest.
Proof.
  intros Hevs Hpend. cbv zeta. rewrite update_plot_eq. cbn [fst snd].
  assert (Ht : start_time (run evs (step (Start t0) s0)) = Some t0).
  { rewrite (run_start_time evs _ Hevs). unfold step, exec.
    rewrite start_action_eq. destruct (serial_port s0) as [q|]; [|reflexivity].
    now destruct (is_open q). }
  destruct Hpend as (Hr & (p & Hp & Hrest) & Hfields).
  rewrite (tick_state_sample now _ a b rest y1 y2 t0 p); trivial.
  - now repeat split.
  - split; [exact Hr|]. split; [|exact Hfields].
    exists p. split; [exact Hp|exact Hrest].
Qed.


(** *** Clear and Stop *)

(** C6: from any state Clear empties the three series and resets the two
    value labels (and the plotted lines) to their zero state; a second
    Clear changes nothing more; the running status, the start time, the
    port and the timer are untouched, so a running session keeps
    acquiring: the next well-formed line is appended as the only sample of
    the emptied buffer. *)
Theorem clear_empties_buffer s :
  let r := clear_action s in
  fst r = inl tt
  /\ x_data (snd r) = [] /\ y1_data (snd r) = [] /\ y2_data (snd r) = []
  /\ y1_label (snd r) = LabelZero /\ y2_label (snd r) = LabelZero
  /\ line1 (snd r) = ([], []) /\ line2 (snd r) = ([], [])
  /\ snd (clear_action (snd r)) = snd r
  /\ is_running (snd r) = is_running s
  /\ start_time (snd r) = start_time s
  /\ serial_port (snd r) = serial_port s
  /\ after_pending (snd r) = after_pending s
  /\ forall now a b rest y1 y2 t0,
       pending_sample s a b rest y1 y2 -> start_time s = Some t0 ->
       let r' := update_plot now (snd r) in
       fst r' = inl tt /\ is_running (snd r') = true
       /\ x_data (snd r') = [fsub now t0]
       /\ y1_data (snd r') = [y1] /\ y2_data (snd r') = [y2].
Proof.
  cbv zeta. rewrite clear_action_eq. cbn [fst snd].
  do 13 (split; [reflexivity|]).
  intros now a b rest y1 y2 t0 Hpend Ht. rewrite update_plot_eq.
  cbn [fst snd].
  destruct Hpend as (Hr & (p & Hp & Hrest) & Hfields).
  rewrite (tick_state_sample now (cleared s) a b rest y1 y2 t0 p); trivial.
  - now repeat split.
  - split; [exact Hr|]. split; [|exact Hfields].
    exists p. split; [exact Hp|exact Hrest].
Qed.

Lemma run_stopped evs : forall s,
  forallb keeps_buffer evs = true -> is_running s = false ->
  is_running (run evs s) = false
  /\ x_data (run evs s) = x_data s /\ y1_data (run evs s) = y1_data s
  /\ y2_data (run evs s) = y2_data s.
Proof.
  induction evs as [|e evs IH]; intros s H Hr; [now repeat split|].
  cbn [forallb] in H. apply andb_prop in H as [He Hevs].
  destruct (step_stopped e s He Hr) as (Hr' & Hx & Hy1 & Hy2).
  destruct (IH (step e s) Hevs Hr') as (Hr'' & Hx' & Hy1' & Hy2').
  rewrite run_cons. repeat split; congruence.
Qed.

(** C7: Stop leaves the session not Running and the collected samples in
    place. Whatever ticks and device lines follow (any events other than
    Start and Clear), the session stays not Running and the three series
    stay exactly as they were, while every tick, running or not, schedules
    the next one, so the timer stays armed. *)
Theorem stop_halts_appends s evs :
  forallb keeps_buffer evs = true ->
  let s1 := snd (stop_action s) in
  fst (stop_action s) = inl tt
  /\ is_running s1 = false
  /\ x_data s1 = x_data s /\ y1_data s1 = y1_data s /\ y2_data s1 = y2_data s
  /\ is_running (run evs s1) = false
  /\ x_data (run evs s1) = x_data s /\ y1_data (run evs s1) = y1_data s
  /\ y2_data (run evs s1) = y2_data s
  /\ after_pending (run evs s1) = after_pending s
  /\ forall now s', fst (update_plot now s') = inl tt
                    /\ after_pending (snd (update_plot now s'))
                       = S (after_pending s').
Proof.
  intros Hevs. cbv zeta. rewrite stop_action_eq. cbn [fst snd].
  destruct (run_stopped evs (set_is_running false s) Hevs eq_refl)
    as (Hr & Hx & Hy1 & Hy2).
  do 5 (split; [reflexivity|]).
  split; [exact Hr|]. split; [exact Hx|]. split; [exact Hy1|].
  split; [exact Hy2|]. split; [now rewrite run_after_pending|].
  intros now s'. rewrite update_plot_eq. cbn [fst snd]. split; [reflexivity|].
  destruct (tick_state_outcome now s'); reflexivity.
Qed.

(** *** Export *)

Lemma host_ok_inv h :
  host_ok h = true ->
  connect_ok h = true /\ insert_ok h = true
  /\ flow_creatable h = true /\ volume_creatable h = true
  /\ hospital_markup_ok h = true /\ address_markup_ok h = true
  /\ report_creatable h = true /\ history_error h = None.
Proof.
  unfold host_ok, history_ok. intros H.
  repeat (apply andb_prop in H as [H ?]).
  destruct (history_error h); [discriminate|]. now repeat split.
Qed.

Lemma submit_state_ok h f created_at date s :
  all_fields f = true -> int64 (age_patient f) = true -> host_ok h = true ->
  aligned s ->
  submit_state h f created_at date s =
  finished
    (set_files
       ((pdf_filename f,
         PdfReport f date (x_data s, y1_data s) (x_data s, y2_data s))
        :: ("volume.png"%string, PlotImage (x_data s) (y2_data s))
        :: ("flow.png"%string, PlotImage (x_data s) (y1_data s))
        :: files s)
       (set_inserts (inserts s ++ [(f, created_at)]) s)).
Proof.
  intros Hf Hage Hh [H1 H2].
  destruct (host_ok_inv h Hh) as (Hc & Hi & Hfl & Hvo & Hho & Had & Hre & Hhi).
  unfold submit_state, history_state, pdf_state.
  rewrite Hf, Hc, Hage, Hi, Hfl, Hvo, Hho, Had, Hre, Hhi.
  cbn [x_data y1_data y2_data set_inserts].
  replace (length (x_data s) =? length (y1_data s))%nat with true
    by (symmetry; apply Nat.eqb_eq; exact H1).
  replace (length (x_data s) =? length (y2_data s))%nat with true
    by (symmetry; apply Nat.eqb_eq; congruence).
  reflexivity.
Qed.

(** C2 (as amended): Save does not reject an empty buffer. With every form
    field filled in and an age that fits 64 bits, and when nothing fails
    on the host (the INSERT is run, the two figures and the report are
    created under their names, the two header texts are accepted as
    markup, the history list is refreshed), submitting the form raises
    nothing, reports success
    and writes a report whose two plots are the series of the buffer as
    they are when the form is submitted, whatever their length, zero
    included; the buffer is not modified, and the written files are not
    affected by any later event other than another submission. *)
Theorem export_copies_buffer h s f created_at date :
  all_fields f = true -> int64 (age_patient f) = true -> host_ok h = true ->
  aligned s ->
  let r := submit h f created_at date s in
  fst r = inl tt
  /\ lookup (pdf_filename f) (files (snd r))
     = Some (PdfReport f date (x_data s, y1_data s) (x_data s, y2_data s))
  /\ dialogs (snd r) = dialogs s ++ [ShowInfo_Success]
  /\ log (snd r) = log s
  /\ x_data (snd r) = x_data s /\ y1_data (snd r) = y1_data s
  /\ y2_data (snd r) = y2_data s
  /\ forall evs, forallb (fun e => negb (is_submit e)) evs = true ->
       files (run evs (snd r)) = files (snd r).
Proof.
  intros Hf Hage Hh Hal. cbv zeta.
  rewrite submit_eq, (submit_state_ok h f created_at date s Hf Hage Hh Hal).
  cbn [fst snd].
  split; [reflexivity|]. split.
  { cbn [files finished set_dialogs set_entry_windows set_files lookup].
    now rewrite String.eqb_refl. }
  do 5 (split; [reflexivity|]).
  intros evs Hevs. now apply run_files.
Qed.

(** *** Invariants *)

(** C9: the three series always have one length: it holds when the
    application starts, every event (Start, Stop, Clear, a tick that
    appends or not, Save and its form, bytes from the device) preserves
    it, so it holds after any sequence of events; and a line whose first
    field converts while its second does not leaves all three series as
    they were. *)
Theorem buffers_aligned :
  (forall fs rows, aligned (init fs rows))
  /\ (forall e s, aligned s -> aligned (step e s))
  /\ (forall evs fs rows, aligned (run evs (init fs rows)))
  /\ (forall now s p raw rest t a b y1,
        is_running s = true -> serial_port s = Some p -> is_open p = true ->
        rx p <> [] -> take_line (rx p) = (raw, rest) ->
        decode raw = Some t -> split comma (strip t) = [a; b] ->
        float_of_str a = Some y1 -> float_of_str b = None ->
        x_data (snd (update_plot now s)) = x_data s
        /\ y1_data (snd (update_plot now s)) = y1_data s
        /\ y2_data (snd (update_plot now s)) = y2_data s).
Proof.
  split; [intros; now split|]. split; [exact step_aligned|]. split.
  - intros evs fs rows.
    assert (H : forall s, aligned s -> aligned (run evs s)).
    { induction evs as [|e evs IH]; intros s Hs; [exact Hs|].
      rewrite run_cons. apply IH. now apply step_aligned. }
    apply H. now split.
  - intros now s p raw rest t a b y1 Hr Hp Ho Hne Hl Ht Hs Ha Hb.
    rewrite update_plot_eq. cbn [snd].
    rewrite (tick_state_line now s p raw rest Hr Hp Ho Hne Hl). cbv zeta.
    rewrite (classify_malformed raw (Some (ValueError_float b))
               (@unparsable_second raw t a b y1 Ht Hs Ha Hb)).
    now repeat split.
Qed.

(** *** Order of the elapsed times *)

Variable fle : pyfloat -> pyfloat -> Prop.

Lemma StronglySorted_snoc (l : list pyfloat) (x : pyfloat) :
  StronglySorted fle l -> Forall (fun y => fle y x) l ->
  StronglySorted fle (l ++ [x]).
Proof.
  induction 1 as [|a l Hl IH Ha]; intros Hx; cbn.
  - repeat constructor.
  - inversion Hx; subst. constructor; [now apply IH|].
    apply Forall_app. split; [exact Ha|]. now repeat constructor.
Qed.

Lemma run_sorted t0 evs : forall s,
  forallb (fun e => negb (is_start e)) evs = true ->
  StronglySorted fle (readings evs) ->
  (forall a b, In a (readings evs) -> In b (readings evs) ->
               fle a b -> fle (fsub a t0) (fsub b t0)) ->
  start_time s = Some t0 ->
  StronglySorted fle (x_data s) ->
  (forall x t, In x (x_data s) -> In t (readings evs) -> fle x (fsub t t0)) ->
  StronglySorted fle (x_data (run evs s)).
Proof.
  induction evs as [|e evs IH]; intros s Hevs Hsorted Hmono Ht Hx Hbound;
    [exact Hx|].
  cbn [forallb] in Hevs. apply andb_prop in Hevs as [He Hevs].
  apply negb_true_iff in He.
  assert (Hsub : forall t, In t (readings evs) -> In t (readings (e :: evs))).
  { intros t Hin. unfold readings in *. cbn [flat_map]. apply in_or_app.
    now right. }
  assert (Hsorted' : StronglySorted fle (readings evs)).
  { destruct e; try exact Hsorted. now inversion Hsorted. }
  rewrite run_cons. apply IH; trivial.
  - intros a b Ha Hb. apply Hmono; now apply Hsub.
  - now rewrite step_start_time.
  - destruct (step_x_data e s He) as [->| [->| (t & t1 & -> & Ht1 & ->)]];
      [exact Hx|constructor|].
    apply StronglySorted_snoc; [exact Hx|].
    apply Forall_forall. intros x Hin. rewrite Ht in Ht1. injection Ht1 as <-.
    apply Hbound; [exact Hin|]. now left.
  - intros x t Hin Hint.
    destruct (step_x_data e s He) as [Hs| [Hs| (t' & t1 & -> & Ht1 & Hs)]];
      rewrite Hs in Hin.
    + apply Hbound; [exact Hin|now apply Hsub].
    + contradiction.
    + apply in_app_or in Hin as [Hin|[<-|[]]].
      * apply Hbound; [exact Hin|now apply Hsub].
      * rewrite Ht in Ht1. injection Ht1 as <-.
        apply Hmono; [now left|now apply Hsub|].
        inversion Hsorted as [|? ? _ Hall]; subst.
        rewrite Forall_forall in Hall. now apply Hall.
Qed.

(** C8 (as amended): within one session, that is over any events other
    than Start that follow a Start at time [t0], the elapsed times in the
    buffer are non-decreasing in arrival order provided the clock readings
    of the ticks are non-decreasing and subtracting [t0] keeps their
    order. *)
Theorem elapsed_sorted s0 t0 evs :
  forallb (fun e => negb (is_start e)) evs = true ->
  StronglySorted fle (readings evs) ->
  (forall a b, In a (readings evs) -> In b (readings evs) ->
               fle a b -> fle (fsub a t0) (fsub b t0)) ->
  StronglySorted fle (x_data (run evs (step (Start t0) s0))).
Proof.
  intros Hevs Hsorted Hmono.
  assert (Hs : start_time (step (Start t0) s0) = Some t0
               /\ x_data (step (Start t0) s0) = []).
  { unfold step, exec. rewrite start_action_eq.
    destruct (serial_port s0) as [q|]; [|now split].
    destruct (is_open q); now split. }
  destruct Hs as [Ht Hx].
  apply (run_sorted t0); trivial.
  - rewrite Hx. constructor.
  - rewrite Hx. intros x t [].
Qed.

(** *** Further properties of the tick *)

Lemma run_snoc evs e s : run (evs ++ [e]) s = step e (run evs s).
Proof. unfold run. now rewrite fold_left_app. Qed.

Lemma take_line_app buf :
  fst (take_line buf) ++ snd (take_line buf) = buf.
Proof.
  induction buf as [|b buf IH]; [reflexivity|]. cbn [take_line].
  destruct (Byte.eqb b newline); [reflexivity|].
  destruct (take_line buf) as [l rest]. cbn [fst snd] in *.
  cbn. now rewrite IH.
Qed.

(** A tick either leaves the state alone or handles the first line of the
    receive buffer of a running session. *)
Lemma tick_state_cases now s :
  tick_state now s = s
  \/ exists p raw rest,
       is_running s = true /\ serial_port s = Some p /\ is_open p = true
       /\ rx p <> [] /\ take_line (rx p) = (raw, rest)
       /\ tick_state now s =
          match classify raw with
          | Skipped => set_serial_port (Some (mkSerial true rest (tx p))) s
          | Rejected e =>
              report e (set_serial_port (Some (mkSerial true rest (tx p))) s)
          | Sample_ok y1 y2 =>
              match start_time s with
              | Some t0 =>
                  append_sample (fsub now t0) y1 y2
                    (set_serial_port (Some (mkSerial true rest (tx p))) s)
              | None =>
                  report AttributeError_start_time
                    (set_serial_port (Some (mkSerial true rest (tx p))) s)
              end
          end.
Proof.
  destruct (serial_port s) as [p|] eqn:Hp;
    [|left; unfold tick_state; now rewrite Hp].
  destruct (is_running s) eqn:Hr;
    [|left; unfold tick_state; now rewrite Hp, Hr].
  destruct (is_open p) eqn:Ho;
    [|left; unfold tick_state; now rewrite Hp, Hr, Ho].
  assert (Hd : rx p = [] \/ rx p <> []).
  { destruct (rx p); [now left|right; discriminate]. }
  destruct Hd as [Hrx|Hne];
    [left; unfold tick_state; now rewrite Hp, Hr, Ho, Hrx|].
  right. destruct (take_line (rx p)) as [raw rest] eqn:Hl.
  exists p, raw, rest.
  repeat (split; [trivial|]).
  exact (tick_state_line now s p raw rest Hr Hp Ho Hne Hl).
Qed.

Ltac tick_branches now s :=
  destruct (tick_state_cases now s)
    as [->|(p & raw & rest & Hr & Hp & Ho & Hne & Hl & ->)];
  [|destruct (classify raw) as [y1 y2| |e];
    [destruct (start_time s) as [t0|] eqn:Ht| |]].

(** X13: a tick is silent and local. Whatever it reads, it shows no
    message box, writes no file and nothing to the database, leaves the
    forms, the running status and the start time alone, writes nothing to
    the device and does not close the port; it adds at most one record,
    the same one, to the log and to the console. *)
Theorem tick_is_silent now s :
  let r := update_plot now s in
  dialogs (snd r) = dialogs s /\ files (snd r) = files s
  /\ inserts (snd r) = inserts s /\ entry_windows (snd r) = entry_windows s
  /\ is_running (snd r) = is_running s /\ start_time (snd r) = start_time s
  /\ link_open (snd r) = link_open s
  /\ option_map tx (serial_port (snd r)) = option_map tx (serial_port s)
  /\ exists l, log (snd r) = log s ++ l /\ stdout (snd r) = stdout s ++ l
               /\ length l <= 1.
Proof.
  cbv zeta. rewrite update_plot_eq. cbn [snd]. unfold link_open.
  tick_branches now s; cbn; rewrite ?Hp; cbn; rewrite ?Ho;
    repeat (split; [first [reflexivity|assumption]|]);
    first [ exists []; rewrite !app_nil_r;
            split; [reflexivity|split; [reflexivity|cbn; lia]]
          | eexists; split; [reflexivity|]; split; [reflexivity|]; cbn; lia ].
Qed.

(** X3: a tick of a running session with bytes waiting removes exactly the
    first line from the receive buffer, whatever the line holds, and
    appends at most one sample; the bytes after the line stay queued for
    the next ticks. *)
Theorem tick_consumes_one_line now s p :
  is_running s = true -> serial_port s = Some p -> is_open p = true ->
  rx p <> [] ->
  let r := update_plot now s in
  fst r = inl tt
  /\ (exists p', serial_port (snd r) = Some p'
                 /\ rx p = fst (take_line (rx p)) ++ rx p'
                 /\ rx p' = snd (take_line (rx p))
                 /\ length (rx p') < length (rx p))
  /\ length (x_data s) <= length (x_data (snd r))
     <= S (length (x_data s)).
Proof.
  intros Hr Hp Ho Hne. cbv zeta. rewrite update_plot_eq. cbn [fst snd].
  split; [reflexivity|].
  destruct (take_line (rx p)) as [raw rest] eqn:Hl.
  rewrite (tick_state_line now s p raw rest Hr Hp Ho Hne Hl). cbv zeta.
  assert (Happ : rx p = raw ++ rest).
  { pose proof (take_line_app (rx p)) as H. now rewrite Hl in H. }
  assert (Hraw : raw <> []).
  { destruct (rx p) as [|b0 buf]; [contradiction|]. cbn [take_line] in Hl.
    destruct (Byte.eqb b0 newline); [injection Hl as <- _; discriminate|].
    destruct (take_line buf). injection Hl as <- _. discriminate. }
  assert (Hlen : length rest < length (rx p)).
  { rewrite Happ, length_app. destruct raw; [contradiction|]. cbn. lia. }
  cbn [fst snd].
  destruct (classify raw) as [y1 y2| |e];
    [destruct (start_time s) as [t0|]| |];
    (split; [eexists; split; [reflexivity|]; cbn [rx]; repeat split; assumption
            |cbn; rewrite ?length_app; cbn; lia]).
Qed.

(** *** Invariants of the running application *)

Lemma step_port e s p :
  serial_port s = Some p -> is_open p = true ->
  exists p', serial_port (step e s) = Some p' /\ is_open p' = true
             /\ tx p' = tx p ++ (if is_start e then ["A"%byte] else []).
Proof.
  intros Hport Hopen.
  destruct e as [now|now| | | |h f c d|data]; cbn [is_start].
  - rewrite step_tick. destruct (after_pending s) as [|n].
    + exists p. rewrite app_nil_r. now repeat split.
    + destruct (tick_state_cases now (set_after_pending n s))
        as [->|(q & raw & rest & _ & Hq & _ & _ & _ & ->)].
      * exists p. rewrite app_nil_r. now repeat split.
      * cbn [serial_port set_after_pending] in Hq. rewrite Hport in Hq.
        injection Hq as <-.
        exists (mkSerial true rest (tx p)). rewrite app_nil_r.
        destruct (classify raw);
          [destruct (start_time (set_after_pending n s))| |];
          repeat split.
  - unfold step, exec. rewrite start_action_eq, Hport, Hopen. cbn.
    eexists. split; [reflexivity|]. now split.
  - exists p. rewrite app_nil_r. now repeat split.
  - exists p. rewrite app_nil_r. now repeat split.
  - exists p. rewrite app_nil_r. now repeat split.
  - exists p. rewrite app_nil_r. split; [|now split].
    submit_cases h f c d s; [exact Hport|]. now rewrite Hp.
  - unfold step. rewrite Hport, Hopen. cbn. eexists. split; [reflexivity|].
    rewrite app_nil_r. now split.
Qed.

Lemma init_port evs fs rows :
  exists p, serial_port (run evs (init fs rows)) = Some p
            /\ is_open p = true
            /\ tx p = repeat "A"%byte (starts evs).
Proof.
  induction evs as [|e evs IH] using rev_ind.
  - eexists. split; [reflexivity|]. now split.
  - destruct IH as (p & Hp & Ho & Htx). rewrite run_snoc.
    destruct (step_port e _ p Hp Ho) as (p' & Hp' & Ho' & Htx').
    exists p'. split; [exact Hp'|]. split; [exact Ho'|].
    rewrite Htx', Htx. unfold starts. rewrite filter_app, length_app.
    rewrite repeat_app. f_equal. cbn [filter].
    now destruct (is_start e).
Qed.

(** X2: the only bytes the application ever writes to the device are
    start bytes: after any events since start-up the port is still open
    and the bytes written are one 'A' per Start pressed. Stop, Clear, Save
    and the ticks send nothing. *)
Theorem only_start_bytes_written evs fs rows :
  exists p, serial_port (run evs (init fs rows)) = Some p
            /\ is_open p = true
            /\ tx p = repeat "A"%byte (starts evs).
Proof. exact (init_port evs fs rows). Qed.

(** X15: the port opened at start-up is closed when the application
    ends: after the main loop, whatever events it handled,
    [close_resources] finds the port open and closes it, keeping the record
    of the bytes written and the unread input. *)
Theorem port_closed_at_exit evs fs rows :
  exists p, serial_port (run evs (init fs rows)) = Some p
            /\ is_open p = true
            /\ serial_port (app_run evs (init fs rows)) = Some (close p)
            /\ link_open (app_run evs (init fs rows)) = false
            /\ x_data (app_run evs (init fs rows))
               = x_data (run evs (init fs rows)).
Proof.
  destruct (init_port evs fs rows) as (p & Hp & Ho & _).
  exists p. split; [exact Hp|]. split; [exact Ho|].
  unfold app_run, exec, close_resources, bind, gets, modify, ret, link_open.
  rewrite Hp, Ho. cbn. now repeat split.
Qed.

Lemma step_clock_set e s : clock_set s -> clock_set (step e s).
Proof.
  intros [Hrun Hlog].
  assert (Hin : forall (l : list log_entry) x,
             x <> start_time_missing -> ~ In start_time_missing (l ++ [x]) <->
             ~ In start_time_missing l).
  { intros l x Hx. split; intros H Hl; apply H.
    - apply in_or_app. now left.
    - apply in_app_or in Hl as [Hl|[Hl|[]]]; [exact Hl|now elim Hx]. }
  destruct e as [now|now| | | |h f c d|data]; try (split; assumption).
  - rewrite step_tick. destruct (after_pending s) as [|n]; [now split|].
    destruct (tick_state_cases now (set_after_pending n s))
      as [->|(q & raw & rest & Hr & _ & _ & _ & _ & ->)]; [now split|].
    cbn [is_running set_after_pending] in Hr.
    unfold classify.
    destruct (decode raw) as [t|].
    + destruct (split comma (strip t)) as [|a [|b [|c l]]];
        try (split; assumption).
      destruct (float_of_str a); [destruct (float_of_str b)|].
      * cbn [start_time set_after_pending].
        destruct (start_time s) eqn:Ht; [split; [|exact Hlog]|].
        -- cbn. intros _. now rewrite Ht.
        -- now elim (Hrun Hr).
      * split; [exact Hrun|]. cbn. apply Hin; [discriminate|exact Hlog].
      * split; [exact Hrun|]. cbn. apply Hin; [discriminate|exact Hlog].
    + split; [exact Hrun|]. cbn. apply Hin; [discriminate|exact Hlog].
  - unfold step, exec. rewrite start_action_eq.
    destruct (serial_port s) as [q|]; [destruct (is_open q)|];
      (split; [cbn; discriminate|exact Hlog]).
  - split; [cbn; discriminate|exact Hlog].
  - unfold step, exec. destruct (entry_windows s); [now split|].
    destruct (submit_session h f c d s) as [(_ & _ & _ & Hrun' & Ht' & _) _].
    split; [now rewrite Hrun', Ht'|].
    submit_branches h f c d s; cbn;
      repeat (apply Hin; [discriminate|]); exact Hlog.
  - unfold step. destruct (serial_port s) as [q|]; [|now split].
    destruct (is_open q); now split.
Qed.

(** X1: [update_plot] reads [self.start_time], which [__init__] never
    sets. It is safe: after any events since start-up a Running session
    has its start time, and the log holds no error record of a missing
    [start_time]. *)
Theorem running_has_start_time evs fs rows :
  let s := run evs (init fs rows) in
  (is_running s = true -> exists t0, start_time s = Some t0)
  /\ ~ In start_time_missing (log s).
Proof.
  cbv zeta.
  assert (H : clock_set (run evs (init fs rows))).
  { induction evs as [|e evs IH] using rev_ind.
    - split; [discriminate|intros []].
    - rewrite run_snoc. now apply step_clock_set. }
  destruct H as [Hrun Hlog]. split; [|exact Hlog].
  intros Hr. destruct (start_time (run evs (init fs rows))) as [t0|] eqn:Ht.
  - now exists t0.
  - now elim (Hrun Hr).
Qed.

(** X12: the polling loop neither dies nor multiplies: after any events
    since start-up exactly one tick is scheduled. *)
Theorem one_tick_scheduled evs fs rows :
  after_pending (run evs (init fs rows)) = 1.
Proof. now rewrite run_after_pending. Qed.

Lemma step_closed e s :
  link_open s = false ->
  link_open (step e s) = false
  /\ length (x_data (step e s)) <= length (x_data s).
Proof.
  unfold link_open. intros Hc.
  destruct e as [now|now| | | |h f c d|data]; try (split; [exact Hc|cbn; lia]).
  - rewrite step_tick. destruct (after_pending s) as [|n]; [split; [exact Hc|lia]|].
    destruct (tick_state_cases now (set_after_pending n s))
      as [->|(q & raw & rest & _ & Hq & Ho & _)]; [split; [exact Hc|cbn; lia]|].
    cbn [serial_port set_after_pending] in Hq. rewrite Hq in Hc. congruence.
  - unfold step, exec. rewrite start_action_eq.
    destruct (serial_port s) as [q|] eqn:Hq.
    + rewrite Hc. cbn. rewrite Hq, Hc. split; [reflexivity|lia].
    + cbn. rewrite Hq. split; [reflexivity|lia].
  - submit_cases h f c d s; [split; [exact Hc|lia]|].
    rewrite Hp, Hx. split; [exact Hc|lia].
  - unfold step. destruct (serial_port s) as [q|] eqn:Hq; [|rewrite Hq; split; [reflexivity|lia]].
    rewrite Hc, Hq. split; [exact Hc|lia].
Qed.

(** X11: [close_resources] never fails, with no port, a closed port or an
    open one; it leaves the link not open and the buffer as it was, and a
    second call changes nothing. Once the link is closed no event ever
    appends a sample again: the buffer can only stay or shrink. *)
Theorem closed_link_never_appends s evs :
  let s' := snd (close_resources s) in
  fst (close_resources s) = inl tt
  /\ link_open s' = false
  /\ x_data s' = x_data s /\ y1_data s' = y1_data s /\ y2_data s' = y2_data s
  /\ snd (close_resources s') = s'
  /\ link_open (run evs s') = false
  /\ length (x_data (run evs s')) <= length (x_data s).
Proof.
  cbv zeta.
  assert (Hc : close_resources s =
               (inl tt,
                match serial_port s with
                | Some p => if is_open p then set_serial_port (Some (close p)) s
                            else s
                | None => s
                end)).
  { unfold close_resources, bind, gets, modify, ret.
    destruct (serial_port s) as [p|]; [|reflexivity].
    now destruct (is_open p). }
  rewrite Hc. cbn [fst snd]. split; [reflexivity|].
  set (s' := match serial_port s with
             | Some p => if is_open p then set_serial_port (Some (close p)) s
                         else s
             | None => s
             end).
  assert (Hs' : link_open s' = false /\ x_data s' = x_data s
                /\ y1_data s' = y1_data s /\ y2_data s' = y2_data s
                /\ snd (close_resources s') = s').
  { subst s'. unfold link_open, close_resources, bind, gets, modify, ret.
    destruct (serial_port s) as [p|] eqn:Hp.
    - destruct (is_open p) eqn:Ho.
      + cbn. now repeat split.
      + rewrite Hp, Ho. now repeat split.
    - rewrite Hp. now repeat split. }
  destruct Hs' as (Hl & Hx & Hy1 & Hy2 & Hidem).
  repeat (split; [assumption|]).
  rewrite <- Hx. clear Hx Hy1 Hy2 Hidem Hc. revert Hl. generalize s'.
  induction evs as [|e evs IH]; intros s1 Hl; [split; [exact Hl|cbn; lia]|].
  rewrite run_cons. destruct (step_closed e s1 Hl) as [Hl' Hlen].
  destruct (IH _ Hl') as [Hl'' Hlen']. split; [exact Hl''|lia].
Qed.

Lemma submit_display h f c d s :
  line1 (snd (submit h f c d s)) = line1 s
  /\ line2 (snd (submit h f c d s)) = line2 s
  /\ y1_label (snd (submit h f c d s)) = y1_label s
  /\ y2_label (snd (submit h f c d s)) = y2_label s.
Proof. submit_branches h f c d s; now repeat split. Qed.

Lemma step_append e s :
  keeps_buffer e = true ->
  exists lx ly1 ly2,
    x_data (step e s) = x_data s ++ lx
    /\ y1_data (step e s) = y1_data s ++ ly1
    /\ y2_data (step e s) = y2_data s ++ ly2
    /\ length lx = length ly1 /\ length ly1 = length ly2
    /\ length lx <= length (readings [e]).
Proof.
  intros Hk.
  assert (Hsame : forall s', x_data s' = x_data s -> y1_data s' = y1_data s ->
                             y2_data s' = y2_data s ->
            exists lx ly1 ly2,
              x_data s' = x_data s ++ lx /\ y1_data s' = y1_data s ++ ly1
              /\ y2_data s' = y2_data s ++ ly2
              /\ length lx = length ly1 /\ length ly1 = length ly2
              /\ length lx <= length (readings [e])).
  { intros s' -> -> ->. exists [], [], []. rewrite !app_nil_r.
    repeat split; cbn; lia. }
  destruct e as [now|now| | | |h f c d|data]; try discriminate;
    try (apply Hsame; reflexivity).
  - rewrite step_tick. destruct (after_pending s) as [|n];
      [apply Hsame; reflexivity|].
    tick_branches now (set_after_pending n s);
      try (apply Hsame; reflexivity).
    exists [fsub now t0], [y1], [y2]. now repeat split.
  - submit_cases h f c d s; [apply Hsame; reflexivity|]. now apply Hsame.
  - unfold step. destruct (serial_port s) as [q|]; [|apply Hsame; reflexivity].
    destruct (is_open q); apply Hsame; reflexivity.
Qed.

(** X21: the Sample Buffer is append-only outside Start and Clear: over
    any other events (ticks, Stop, Save, form submissions, device bytes)
    the stored samples are never removed, reordered or altered; the three
    series grow by the same number of new values, at most one per tick. *)
Theorem buffer_append_only evs : forall s,
  forallb keeps_buffer evs = true ->
  exists lx ly1 ly2,
    x_data (run evs s) = x_data s ++ lx
    /\ y1_data (run evs s) = y1_data s ++ ly1
    /\ y2_data (run evs s) = y2_data s ++ ly2
    /\ length lx = length ly1 /\ length ly1 = length ly2
    /\ length lx <= length (readings evs).
Proof.
  induction evs as [|e evs IH]; intros s Hk.
  - exists [], [], []. rewrite !app_nil_r. repeat split; cbn; lia.
  - cbn [forallb] in Hk. apply andb_prop in Hk as [He Hevs].
    destruct (step_append e s He) as (lx & ly1 & ly2 & Hx & Hy1 & Hy2 & H1 & H2 & H3).
    destruct (IH (step e s) Hevs)
      as (lx' & ly1' & ly2' & Hx' & Hy1' & Hy2' & H1' & H2' & H3').
    exists (lx ++ lx'), (ly1 ++ ly1'), (ly2 ++ ly2'). rewrite run_cons.
    rewrite Hx', Hy1', Hy2', Hx, Hy1, Hy2, <- !app_assoc, !length_app.
    assert (Hlen : length (readings (e :: evs))
                   = length (readings [e]) + length (readings evs))
      by (destruct e; reflexivity).
    repeat split; lia.
Qed.

Lemma step_lines_mirror e s : lines_mirror s -> lines_mirror (step e s).
Proof.
  unfold lines_mirror. intros [H1 H2].
  destruct e as [now|now| | | |h f c d|data]; try (split; assumption).
  - rewrite step_tick. destruct (after_pending s) as [|n]; [now split|].
    tick_branches now (set_after_pending n s); now split.
  - unfold step, exec. rewrite start_action_eq.
    destruct (serial_port s) as [q|]; [destruct (is_open q)|]; now split.
  - now split.
  - unfold step, exec. destruct (entry_windows s); [now split|].
    destruct (submit_session h f c d s) as [(Hx & Hy1 & Hy2 & _) _].
    destruct (submit_display h f c d s) as (Hl1 & Hl2 & _).
    rewrite Hl1, Hl2, Hx, Hy1, Hy2. now split.
  - unfold step. destruct (serial_port s) as [q|]; [|now split].
    destruct (is_open q); now split.
Qed.

(** X18: what is plotted is the buffer: after any events since start-up
    the flow line holds exactly (x_data, y1_data) and the volume line
    exactly (x_data, y2_data). *)
Theorem lines_mirror_buffer evs fs rows :
  line1 (run evs (init fs rows))
  = (x_data (run evs (init fs rows)), y1_data (run evs (init fs rows)))
  /\ line2 (run evs (init fs rows))
     = (x_data (run evs (init fs rows)), y2_data (run evs (init fs rows))).
Proof.
  change (lines_mirror (run evs (init fs rows))).
  induction evs as [|e evs IH] using rev_ind; [now split|].
  rewrite run_snoc. now apply step_lines_mirror.
Qed.

Lemma step_labels_current e s : labels_current s -> labels_current (step e s).
Proof.
  unfold labels_current. intros [H1 H2].
  assert (Hnil : forall (l : list pyfloat) y, [] = l ++ [y] -> False).
  { intros l y H. symmetry in H. now apply app_eq_nil in H as [_ H]. }
  destruct e as [now|now| | | |h f c d|data]; try (split; assumption).
  - rewrite step_tick. destruct (after_pending s) as [|n]; [now split|].
    tick_branches now (set_after_pending n s); try (split; assumption).
    cbn. split; intros l y H; apply app_inj_tail in H as [_ <-]; reflexivity.
  - unfold step, exec. rewrite start_action_eq.
    destruct (serial_port s) as [q|]; [destruct (is_open q)|];
      (cbn; split; intros l y H; now elim (Hnil l y)).
  - cbn. split; intros l y H; now elim (Hnil l y).
  - unfold step, exec. destruct (entry_windows s); [now split|].
    destruct (submit_session h f c d s) as [(_ & Hy1 & Hy2 & _) _].
    destruct (submit_display h f c d s) as (_ & _ & Hl1 & Hl2).
    rewrite Hl1, Hl2, Hy1, Hy2. now split.
  - unfold step. destruct (serial_port s) as [q|]; [|now split].
    destruct (is_open q); now split.
Qed.

(** X19: whenever the buffer is not empty, the two value labels show its
    latest sample: after any events since start-up, the flow label is the
    last value of y1_data and the volume label the last value of y2_data. *)
Theorem labels_show_last_sample evs fs rows :
  (forall l y, y1_data (run evs (init fs rows)) = l ++ [y] ->
               y1_label (run evs (init fs rows)) = LabelValue y)
  /\ (forall l y, y2_data (run evs (init fs rows)) = l ++ [y] ->
                  y2_label (run evs (init fs rows)) = LabelValue y).
Proof.
  change (labels_current (run evs (init fs rows))).
  induction evs as [|e evs IH] using rev_ind.
  - split; intros l y H; symmetry in H; now apply app_eq_nil in H as [_ H].
  - rewrite run_snoc. now apply step_labels_current.
Qed.

(** X20: the buffer never mixes sessions: after any events since start-up
    every elapsed time in the buffer is a tick's clock reading minus the
    start time of the current session. *)
Theorem samples_of_current_session evs fs rows : forall x,
  In x (x_data (run evs (init fs rows))) ->
  exists t t0, start_time (run evs (init fs rows)) = Some t0
               /\ In t (readings evs) /\ x = fsub t t0.
Proof.
  induction evs as [|e evs IH] using rev_ind; intros x Hin; [destruct Hin|].
  rewrite run_snoc in *.
  assert (Hr : forall t, In t (readings evs) -> In t (readings (evs ++ [e]))).
  { intros t Ht. unfold readings. rewrite flat_map_app. apply in_or_app.
    now left. }
  destruct (is_start e) eqn:He.
  - destruct e; try discriminate. exfalso. revert Hin.
    unfold step, exec. rewrite start_action_eq.
    destruct (serial_port _) as [q|]; [destruct (is_open q)|];
      intros [].
  - rewrite (step_start_time _ _ He).
    destruct (step_x_data e (run evs (init fs rows)) He)
      as [Hs|[Hs|(t & t0 & -> & Ht & Hs)]]; rewrite Hs in Hin.
    + destruct (IH x Hin) as (t & t0 & Ht & Hint & ->).
      exists t, t0. auto.
    + destruct Hin.
    + apply in_app_or in Hin as [Hin|[<-|[]]].
      * destruct (IH x Hin) as (t' & t0' & Ht' & Hint & ->).
        exists t', t0'. auto.
      * exists t, t0. split; [exact Ht|]. split; [|reflexivity].
        unfold readings. rewrite flat_map_app. apply in_or_app. right.
        now left.
Qed.

(** X4: Start does not discard input that is already waiting. A
    well-formed line received before the Start (while the session was
    stopped, say) is still in the receive buffer afterwards, and the next
    tick stores it as the first sample of the new session, timed from the
    new start. *)
Theorem start_keeps_pending_input now now' s p a b rest y1 y2 :
  serial_port s = Some p -> is_open p = true ->
  rx p = a ++ ","%byte :: b ++ newline :: rest ->
  forallb field_byte a = true -> forallb field_byte b = true ->
  float_of_str (text a) = Some y1 -> float_of_str (text b) = Some y2 ->
  let s1 := snd (start_action now s) in
  let r := update_plot now' s1 in
  option_map rx (serial_port s1) = Some (rx p)
  /\ x_data (snd r) = [fsub now' now]
  /\ y1_data (snd r) = [y1] /\ y2_data (snd r) = [y2].
Proof.
  intros Hp Ho Hrx Ha Hb H1 H2. cbv zeta.
  rewrite start_action_eq, Hp, Ho. cbn [snd]. split; [reflexivity|].
  rewrite update_plot_eq. cbn [snd].
  rewrite (tick_state_sample now' _ a b rest y1 y2 now
             (mkSerial true (rx p) (tx p ++ start_command))); trivial.
  - now repeat split.
  - split; [reflexivity|]. split; [|now repeat split].
    eexists. split; [reflexivity|]. split; [reflexivity|exact Hrx].
Qed.

(** X17: Start empties the buffer and the plotted lines but not the value
    labels: after a sample and a new Start the labels still show that
    sample of the previous session (only Clear resets them). *)
Theorem start_keeps_labels now now' s a b rest y1 y2 t0 :
  pending_sample s a b rest y1 y2 -> start_time s = Some t0 ->
  let s1 := snd (update_plot now s) in
  let s2 := snd (start_action now' s1) in
  x_data s2 = [] /\ y1_data s2 = [] /\ y2_data s2 = []
  /\ line1 s2 = ([], []) /\ line2 s2 = ([], [])
  /\ y1_label s2 = LabelValue y1 /\ y2_label s2 = LabelValue y2
  /\ y1_label (snd (clear_action s2)) = LabelZero
  /\ y2_label (snd (clear_action s2)) = LabelZero.
Proof.
  intros Hpend Ht. cbv zeta. rewrite update_plot_eq. cbn [snd].
  destruct Hpend as (Hr & (p & Hp & Ho & Hrx) & Hfields).
  rewrite (tick_state_sample now s a b rest y1 y2 t0 p); trivial.
  - rewrite start_action_eq. cbn [serial_port bump append_sample
      set_after_pending set_y2_label set_y1_label set_line2 set_line1
      set_y2_data set_y1_data set_x_data set_serial_port is_open].
    now repeat split.
  - split; [exact Hr|]. split; [|exact Hfields].
    exists p. split; [exact Hp|]. split; [exact Ho|exact Hrx].
Qed.

(** *** The form *)

Lemma step_inserts e s :
  is_submit e = false -> inserts (step e s) = inserts s.
Proof.
  destruct e as [now|now| | | |h f c d|data]; try discriminate; intros _;
    try reflexivity.
  - tick_cases now s; reflexivity.
  - unfold step, exec. rewrite start_action_eq.
    destruct (serial_port s) as [p|]; [|reflexivity].
    now destruct (is_open p).
  - unfold step. destruct (serial_port s) as [p|]; [|reflexivity].
    now destruct (is_open p).
Qed.

Lemma run_inserts evs : forall s,
  forallb (fun e => negb (is_submit e)) evs = true ->
  inserts (run evs s) = inserts s.
Proof.
  induction evs as [|e evs IH]; intros s H; [reflexivity|].
  cbn [forallb] in H. apply andb_prop in H as [He Hevs].
  apply negb_true_iff in He.
  now rewrite run_cons, (IH _ Hevs), step_inserts.
Qed.

Lemma run_aligned evs : forall s, aligned s -> aligned (run evs s).
Proof.
  induction evs as [|e evs IH]; intros s Hs; [exact Hs|].
  rewrite run_cons. apply IH. now apply step_aligned.
Qed.

(** X5: a form with an empty text field, or with the age left at 0, is
    refused: the callback returns normally, logs "All fields are required"
    and shows it in an error box; no INSERT is run, no file is written and
    the form stays open. *)
Theorem submit_missing_field h f created_at date s :
  age_patient f = 0%Z \/ first_name f = ""%string \/ last_name f = ""%string
  \/ patient_id_num f = ""%string \/ gender_patient f = ""%string
  \/ doctor_first_name f = ""%string \/ doctor_last_name f = ""%string
  \/ hospital_name f = ""%string \/ hospital_address f = ""%string ->
  let r := submit h f created_at date s in
  fst r = inl tt
  /\ log (snd r) = log s ++ [ErrorSavingData ValueError_fields]
  /\ dialogs (snd r) = dialogs s ++ [ShowError_SaveData ValueError_fields]
  /\ inserts (snd r) = inserts s /\ files (snd r) = files s
  /\ entry_windows (snd r) = entry_windows s
  /\ stdout (snd r) = stdout s.
Proof.
  intros H. cbv zeta. rewrite submit_eq. cbn [fst snd].
  assert (Hf : all_fields f = false).
  { unfold all_fields.
    destruct H as [H|[H|[H|[H|[H|[H|[H|[H|H]]]]]]]]; rewrite H;
      cbn [nonempty Z.eqb negb];
      repeat (rewrite andb_false_r || cbn [andb]); reflexivity. }
  unfold submit_state. rewrite Hf. now repeat split.
Qed.

(** X7: a successful submission (every field filled in, an age that fits
    64 bits, and a host on which nothing fails) runs exactly one INSERT,
    binding the values of the form and the time stamp, closes the form,
    and writes three files on top of the existing ones, none of which is
    removed: flow.png with the flow plot, volume.png with the volume plot,
    and the report; nothing is logged or printed. *)
Theorem submit_stores_row_and_files h f created_at date s :
  all_fields f = true -> int64 (age_patient f) = true -> host_ok h = true ->
  aligned s ->
  let r := submit h f created_at date s in
  inserts (snd r) = inserts s ++ [(f, created_at)]
  /\ entry_windows (snd r) = Nat.pred (entry_windows s)
  /\ files (snd r)
     = (pdf_filename f,
        PdfReport f date (x_data s, y1_data s) (x_data s, y2_data s))
       :: ("volume.png"%string, PlotImage (x_data s) (y2_data s))
       :: ("flow.png"%string, PlotImage (x_data s) (y1_data s))
       :: files s
  /\ log (snd r) = log s /\ stdout (snd r) = stdout s.
Proof.
  intros Hf Hage Hh Hal. cbv zeta.
  rewrite submit_eq, (submit_state_ok h f created_at date s Hf Hage Hh Hal).
  now repeat split.
Qed.

(** X8: the report's file name is built from the patient id and the two
    names only, so two submissions whose names coincide share one file:
    when both succeed, the later report replaces the earlier one, while an
    INSERT has been run for each. *)
Theorem report_overwritten s h1 h2 f1 f2 c1 d1 c2 d2 evs :
  all_fields f1 = true -> int64 (age_patient f1) = true -> host_ok h1 = true ->
  all_fields f2 = true -> int64 (age_patient f2) = true -> host_ok h2 = true ->
  aligned s ->
  pdf_filename f1 = pdf_filename f2 ->
  forallb (fun e => negb (is_submit e)) evs = true ->
  let s1 := snd (submit h1 f1 c1 d1 s) in
  let s2 := run evs s1 in
  let s3 := snd (submit h2 f2 c2 d2 s2) in
  lookup (pdf_filename f1) (files s1)
  = Some (PdfReport f1 d1 (x_data s, y1_data s) (x_data s, y2_data s))
  /\ lookup (pdf_filename f1) (files s3)
     = Some (PdfReport f2 d2 (x_data s2, y1_data s2) (x_data s2, y2_data s2))
  /\ inserts s3 = inserts s ++ [(f1, c1); (f2, c2)].
Proof.
  intros Hf1 Ha1 Hh1 Hf2 Ha2 Hh2 Hal Hname Hevs. cbv zeta.
  assert (Hal1 : aligned (snd (submit h1 f1 c1 d1 s))).
  { destruct (submit_session h1 f1 c1 d1 s) as [(Hx & Hy1 & Hy2 & _) _].
    unfold aligned. rewrite Hx, Hy1, Hy2. exact Hal. }
  assert (Hal2 : aligned (run evs (snd (submit h1 f1 c1 d1 s))))
    by (apply run_aligned; exact Hal1).
  rewrite (submit_eq h2 f2 c2 d2), (submit_state_ok h2 f2 c2 d2 _ Hf2 Ha2 Hh2 Hal2).
  cbn [snd files inserts finished set_dialogs set_entry_windows set_files
       set_inserts lookup].
  rewrite (run_inserts evs _ Hevs).
  rewrite (submit_eq h1 f1 c1 d1), (submit_state_ok h1 f1 c1 d1 s Hf1 Ha1 Hh1 Hal).
  cbn [snd files inserts finished set_dialogs set_entry_windows set_files
       set_inserts lookup].
  rewrite Hname, !String.eqb_refl, <- app_assoc. now repeat split.
Qed.

(** X9: a failure while the report is produced does not reach the form.
    When the INSERT is run and the two figures are saved, but reportlab
    rejects the markup of the hospital name or of the address, or the
    report file cannot be created under its name, then flow.png and
    volume.png are written but no report is, the form is closed and
    success is reported; the failure is only logged and printed as a PDF
    error. *)
Theorem pdf_failure_is_swallowed h f created_at date s e :
  all_fields f = true -> int64 (age_patient f) = true ->
  connect_ok h = true -> insert_ok h = true -> aligned s ->
  flow_creatable h = true -> volume_creatable h = true ->
  report_error h f = Some e -> history_error h = None ->
  let r := submit h f created_at date s in
  fst r = inl tt
  /\ dialogs (snd r) = dialogs s ++ [ShowInfo_Success]
  /\ inserts (snd r) = inserts s ++ [(f, created_at)]
  /\ entry_windows (snd r) = Nat.pred (entry_windows s)
  /\ files (snd r)
     = ("volume.png"%string, PlotImage (x_data s) (y2_data s))
       :: ("flow.png"%string, PlotImage (x_data s) (y1_data s))
       :: files s
  /\ log (snd r) = log s ++ [PdfError e]
  /\ stdout (snd r) = stdout s ++ [PdfError e].
Proof.
  intros Hf Hage Hc Hi [H1 H2] Hfl Hvo He Hhi. cbv zeta. rewrite submit_eq.
  cbn [fst snd]. unfold submit_state, history_state, pdf_state.
  rewrite Hf, Hc, Hage, Hi, Hfl, Hvo, Hhi.
  cbn [x_data y1_data y2_data set_inserts].
  replace (length (x_data s) =? length (y1_data s))%nat with true
    by (symmetry; apply Nat.eqb_eq; exact H1).
  replace (length (x_data s) =? length (y2_data s))%nat with true
    by (symmetry; apply Nat.eqb_eq; congruence).
  unfold report_error in He.
  destruct (hospital_markup_ok h);
    [destruct (address_markup_ok h); [destruct (report_creatable h)|]|];
    try discriminate He; injection He as <-; now repeat split.
Qed.

(** X10: saving never disturbs the acquisition: opening the form and
    submitting it, accepted or refused, raise nothing and leave the three
    series, the running status, the start time, the port, the timer, the
    plotted lines and the labels as they were. *)
Theorem export_leaves_session h f created_at date s :
  let r := submit h f created_at date s in
  fst r = inl tt /\ fst (save_data s) = inl tt
  /\ same_session s (snd r) /\ same_session s (snd (save_data s))
  /\ line1 (snd r) = line1 s /\ line2 (snd r) = line2 s
  /\ y1_label (snd r) = y1_label s /\ y2_label (snd r) = y2_label s.
Proof.
  cbv zeta. destruct (submit_session h f created_at date s) as [Hs Hr].
  destruct (submit_display h f created_at date s) as (H1 & H2 & H3 & H4).
  split; [exact Hr|]. split; [reflexivity|]. split; [exact Hs|].
  split; [unfold same_session; now repeat split|]. now repeat split.
Qed.

(** *** Which lines are dropped silently *)

Lemma split_length t : length (split comma t) = S (commas t).
Proof.
  unfold commas. induction t as [|c t IH]; [reflexivity|].
  cbn [split count_occ].
  destruct (N.eqb_spec c comma) as [->|Hc].
  - destruct (N.eq_dec comma comma) as [_|H]; [|now elim H].
    cbn [length]. now rewrite IH.
  - destruct (N.eq_dec c comma) as [H|_]; [now elim Hc|].
    destruct (split comma t) as [|w ws]; [discriminate IH|exact IH].
Qed.

Lemma commas_lstrip t : commas (lstrip t) = commas t.
Proof.
  unfold commas. induction t as [|c t IH]; [reflexivity|].
  cbn [lstrip]. destruct (isspace c) eqn:Hs; [|reflexivity].
  rewrite IH. cbn [count_occ].
  destruct (N.eq_dec c comma) as [->|_]; [discriminate Hs|reflexivity].
Qed.

Lemma commas_strip t : commas (strip t) = commas t.
Proof.
  unfold strip, rstrip. unfold commas at 1. rewrite count_occ_rev.
  fold (commas (lstrip (rev (lstrip t)))). rewrite commas_lstrip.
  unfold commas at 1. rewrite count_occ_rev. apply commas_lstrip.
Qed.

(** X16: the number of commas decides what a decodable line does. With
    any number of commas other than one the line is dropped without a
    trace: no sample, nothing logged, nothing printed. With exactly one
    comma the line either becomes a sample or leaves a float conversion
    error in the log. *)
Theorem comma_count_decides now s p raw rest t :
  is_running s = true -> serial_port s = Some p -> is_open p = true ->
  rx p <> [] -> take_line (rx p) = (raw, rest) -> decode raw = Some t ->
  let r := update_plot now s in
  (commas t <> 1 ->
   log (snd r) = log s /\ stdout (snd r) = stdout s
   /\ x_data (snd r) = x_data s /\ y1_data (snd r) = y1_data s
   /\ y2_data (snd r) = y2_data s)
  /\ (commas t = 1 -> start_time s <> None ->
      (log (snd r) = log s
       /\ length (x_data (snd r)) = S (length (x_data s)))
      \/ (x_data (snd r) = x_data s
          /\ exists field,
               log (snd r) = log s ++ [PlotUpdateError (ValueError_float field)])).
Proof.
  intros Hr Hp Ho Hne Hl Ht. cbv zeta. rewrite update_plot_eq. cbn [snd].
  rewrite (tick_state_line now s p raw rest Hr Hp Ho Hne Hl). cbv zeta.
  unfold classify. rewrite Ht.
  pose proof (split_length (strip t)) as Hlen. rewrite commas_strip in Hlen.
  split.
  - intros Hc.
    destruct (split comma (strip t)) as [|a [|b [|c l]]];
      try (now repeat split).
    cbn in Hlen. elim Hc. lia.
  - intros Hc Hst. rewrite Hc in Hlen.
    destruct (split comma (strip t)) as [|a [|b [|c l]]]; try discriminate Hlen.
    destruct (float_of_str a) as [y1|].
    + destruct (float_of_str b) as [y2|].
      * destruct (start_time s) as [t0|]; [|now elim Hst].
        left. cbn. rewrite length_app. cbn. split; [reflexivity|lia].
      * right. split; [reflexivity|]. now exists b.
    + right. split; [reflexivity|]. now exists a.
Qed.

(** *** Lines ended by carriage return and newline *)

Lemma lstrip_spaces w m :
  forallb isspace w = true -> lstrip (w ++ m) = lstrip m.
Proof.
  induction w as [|c w IH]; [reflexivity|]. cbn [forallb app lstrip].
  intros H. apply andb_prop in H as [-> Hw]. now apply IH.
Qed.

Lemma strip_trailing l w :
  forallb (fun c => negb (isspace c)) l = true -> l <> [] ->
  forallb isspace w = true -> strip (l ++ w) = l.
Proof.
  intros Hl Hne Hw. unfold strip, rstrip.
  assert (Hhead : lstrip (l ++ w) = l ++ w).
  { destruct l as [|c l]; [contradiction|]. cbn [forallb] in Hl.
    apply andb_prop in Hl as [Hc _]. apply negb_true_iff in Hc.
    cbn [app lstrip]. now rewrite Hc. }
  rewrite Hhead, rev_app_distr, lstrip_spaces.
  - rewrite lstrip_clean; [apply rev_involutive|].
    rewrite forallb_forall in *. intros x Hx. apply Hl. now apply in_rev.
  - rewrite forallb_forall in *. intros x Hx. apply Hw. now apply in_rev.
Qed.

Lemma classify_crlf a b y1 y2 :
  forallb field_byte a = true -> forallb field_byte b = true ->
  float_of_str (text a) = Some y1 -> float_of_str (text b) = Some y2 ->
  classify (a ++ ","%byte :: b ++ ["013"%byte; newline]) = Sample_ok y1 y2.
Proof.
  intros Ha Hb H1 H2.
  assert (Hascii : forall l, forallb field_byte l = true ->
                             forallb (fun c => c <? 128)%N (text l) = true).
  { intros l. apply forallb_text. intros x Hx. apply (field_byte_inv _ Hx). }
  assert (Hsp : forall l, forallb field_byte l = true ->
                forallb (fun c => negb (isspace c)) (text l) = true).
  { intros l. apply forallb_text. intros x Hx. apply negb_true_iff.
    apply (field_byte_inv _ Hx). }
  assert (Hco : forall l, forallb field_byte l = true ->
                forallb (fun c => negb (c =? comma)%N) (text l) = true).
  { intros l. apply forallb_text. intros x Hx. apply negb_true_iff.
    apply (field_byte_inv _ Hx). }
  unfold classify, decode. rewrite map_app. cbn [map]. rewrite map_app.
  cbn [map]. fold (text a) (text b).
  change (Byte.to_N ","%byte) with comma.
  change (Byte.to_N "013"%byte) with 13%N.
  change (Byte.to_N newline) with 10%N.
  rewrite utf8_decode_ascii.
  2:{ rewrite forallb_app. cbn [forallb]. rewrite forallb_app. cbn [forallb].
      rewrite (Hascii _ Ha), (Hascii _ Hb). reflexivity. }
  change (text a ++ comma :: text b ++ [13%N; 10%N])
    with (text a ++ (comma :: text b) ++ [13%N; 10%N]).
  rewrite app_assoc, strip_trailing.
  - rewrite split_two by auto. now rewrite H1, H2.
  - rewrite forallb_app. cbn [forallb]. rewrite (Hsp _ Ha), (Hsp _ Hb).
    reflexivity.
  - destruct (text a); discriminate.
  - reflexivity.
Qed.

(** X14: a line ended by carriage return and newline, as many devices
    send it, is read like the same line ended by a newline alone: the
    tick takes it whole and appends its sample. *)
Theorem crlf_line_appends_sample now s p a b rest y1 y2 t0 :
  is_running s = true -> serial_port s = Some p -> is_open p = true ->
  rx p = a ++ ","%byte :: b ++ "013"%byte :: newline :: rest ->
  forallb field_byte a = true -> forallb field_byte b = true ->
  float_of_str (text a) = Some y1 -> float_of_str (text b) = Some y2 ->
  start_time s = Some t0 ->
  let r := update_plot now s in
  fst r = inl tt
  /\ x_data (snd r) = x_data s ++ [fsub now t0]
  /\ y1_data (snd r) = y1_data s ++ [y1]
  /\ y2_data (snd r) = y2_data s ++ [y2]
  /\ option_map rx (serial_port (snd r)) = Some rest
  /\ log (snd r) = log s.
Proof.
  intros Hr Hp Ho Hrx Ha Hb H1 H2 Ht. cbv zeta. rewrite update_plot_eq.
  cbn [fst snd].
  rewrite (tick_state_line now s p
             (a ++ ","%byte :: b ++ ["013"%byte; newline]) rest Hr Hp Ho).
  - cbv zeta. rewrite (classify_crlf a b y1 y2 Ha Hb H1 H2), Ht.
    now repeat split.
  - rewrite Hrx. now destruct a.
  - rewrite Hrx, (take_line_field _ _ Ha).
    cbn [take_line]. change (Byte.eqb ","%byte newline) with false. cbv iota.
    change (b ++ "013"%byte :: newline :: rest)
      with (b ++ ("013"%byte :: newline :: rest)).
    rewrite (take_line_field _ _ Hb). reflexivity.
Qed.

(** *** Several lines waiting *)

(** X6: lines are decoded in arrival order, one per tick: when the
    receive buffer of a running session starts with any number of
    well-formed lines, as many ticks append their samples in that order,
    each timed by its own tick against the session's start time, and leave
    the bytes after those lines in the buffer. *)
Theorem queued_lines_in_order ls ys :
  Forall2 valid_fields ls ys ->
  forall nows s p t0 rest n,
  length nows = length ls ->
  is_running s = true -> serial_port s = Some p -> is_open p = true ->
  rx p = flat_map wire_line ls ++ rest ->
  start_time s = Some t0 -> after_pending s = S n ->
  let s' := run (map Tick nows) s in
  x_data s' = x_data s ++ map (fun t => fsub t t0) nows
  /\ y1_data s' = y1_data s ++ map fst ys
  /\ y2_data s' = y2_data s ++ map snd ys
  /\ option_map rx (serial_port s') = Some rest
  /\ log s' = log s.
Proof.
  induction 1 as [|[a b] [y1 y2] ls ys (Ha & Hb & H1 & H2) Hall IH];
    intros nows s p t0 rest n Hlen Hr Hp Ho Hrx Ht Hpend; cbv zeta.
  - destruct nows; [|discriminate Hlen]. cbn in *. rewrite !app_nil_r, Hp.
    cbn. now rewrite Hrx.
  - destruct nows as [|now nows]; [discriminate Hlen|].
    injection Hlen as Hlen. cbn [fst snd] in *.
    cbn [map]. rewrite run_cons, step_tick, Hpend.
    assert (Hrx' : rx p = a ++ ","%byte :: b ++ newline
                                  :: (flat_map wire_line ls ++ rest)).
    { rewrite Hrx. cbn [flat_map]. unfold wire_line at 1. cbn [fst snd].
      rewrite <- !app_assoc. cbn [app]. rewrite <- !app_assoc. reflexivity. }
    rewrite (tick_state_sample now (set_after_pending n s) a b
               (flat_map wire_line ls ++ rest) y1 y2 t0 p); trivial.
    + specialize (IH nows
        (bump (append_sample (fsub now t0) y1 y2
           (set_serial_port
              (Some (mkSerial true (flat_map wire_line ls ++ rest) (tx p)))
              (set_after_pending n s))))
        (mkSerial true (flat_map wire_line ls ++ rest) (tx p))
        t0 rest n Hlen Hr eq_refl eq_refl eq_refl Ht eq_refl).
      cbv zeta in IH. destruct IH as (Hx & Hy1 & Hy2 & Hrest & Hlog).
      rewrite Hx, Hy1, Hy2, Hrest, Hlog. cbn. rewrite <- !app_assoc.
      now repeat split.
    + split; [exact Hr|]. split; [|now repeat split].
      exists p. split; [exact Hp|]. split; [exact Ho|exact Hrx'].
Qed.

End Engine.

Arguments Stop {pyfloat}.
Arguments Clear {pyfloat}.
Arguments Save {pyfloat}.
Arguments Submit {pyfloat}.
Arguments Recv {pyfloat}.
Arguments LabelZero {pyfloat}.

(** ** Scenarios on binary64 numbers *)

Local Abbreviation run64 := (run Float64.float_of_str Float64.fsub).
Local Abbreviation step64 := (step Float64.float_of_str Float64.fsub).
Local Abbreviation tick64 := (update_plot Float64.float_of_str Float64.fsub).
Local Abbreviation line l := (bytes_of_string l ++ [newline]).
Local Abbreviation fresh := (@init float [] []).

(** One sample collected: Start at 100 s, the line "10.0,5.0" read at
    100.5 s. *)
Local Abbreviation one_sample :=
  (run64 [Start 100%float; Recv (line "10.0,5.0"); Tick 100.5%float] fresh).

Local Abbreviation patient :=
  (mkForm "Ana" "Lee" 40 "17" "Female" "Sam" "Roe" "General" "Main St").

(** A host on which nothing fails. *)
Local Abbreviation willing := (mkHost true true true true true true true None).

(** C1, counterexample: Start on a port that has been closed, and Start
    with no port object. In both cases the session was not Running and is
    Running afterwards; on the closed port the call ends with the serial
    library's exception, with no port it returns normally. *)
Lemma start_closed_link_counterexample :
  let s := exec (@close_resources float) fresh in
  let s' := set_serial_port None fresh in
  link_open s = false /\ is_running s = false
  /\ fst (start_action 100%float s) = inr PortNotOpenError
  /\ is_running (snd (start_action 100%float s)) = true
  /\ snd (start_action 100%float s) <> s
  /\ link_open s' = false /\ is_running s' = false
  /\ fst (start_action 100%float s') = inl tt
  /\ is_running (snd (start_action 100%float s')) = true.
Proof.
  cbv zeta. do 4 (split; [reflexivity|]).
  split; [|repeat split; reflexivity].
  intros H. apply (f_equal (@is_running float)) in H. discriminate H.
Qed.

Lemma start_without_link_witness :
  let s := exec (@close_resources float) fresh in
  link_open s = false
  /\ is_running (snd (start_action 100%float s)) = true
  /\ x_data (snd (start_action 100%float s)) = [].
Proof.
  cbv zeta. split; [reflexivity|].
  pose proof (start_without_link float 100%float
                (exec (@close_resources float) fresh) eq_refl) as H.
  cbv zeta in H. split; [apply H|apply H].
Defined.

Lemma start_resets_session_witness :
  let s := step64 Stop one_sample in
  x_data s = [0.5%float]
  /\ x_data (snd (start_action 200%float s)) = []
  /\ start_time (snd (start_action 200%float s)) = Some 200%float.
Proof.
  cbv zeta. split; [reflexivity|].
  pose proof (start_resets_session float Float64.float_of_str
                Float64.fsub 200%float (step64 Stop one_sample)
                (mkSerial true [] ["A"%byte]) eq_refl eq_refl) as H.
  cbv zeta in H. split; apply H.
Defined.

Lemma start_while_running_witness :
  is_running one_sample = true
  /\ fst (start_action 200%float one_sample) = inl tt
  /\ is_running (snd (start_action 200%float one_sample)) = true
  /\ x_data (snd (start_action 200%float one_sample)) = [].
Proof.
  split; [reflexivity|].
  pose proof (start_while_running float 200%float one_sample
                (mkSerial true [] ["A"%byte]) eq_refl eq_refl eq_refl) as H.
  cbv zeta in H. repeat split; apply H.
Defined.

Lemma valid_line_appends_sample_witness :
  let s := run64 [Recv (line "10.0,5.0")] (step64 (Start 100%float) fresh) in
  x_data s = []
  /\ x_data (snd (tick64 100.5%float s)) = [0.5%float]
  /\ y1_data (snd (tick64 100.5%float s)) = [10%float]
  /\ y2_data (snd (tick64 100.5%float s)) = [5%float].
Proof.
  cbv zeta. split; [reflexivity|].
  assert (Hpend : pending_sample Float64.float_of_str
                    (run64 [Recv (line "10.0,5.0")]
                       (step64 (Start 100%float) fresh))
                    (bytes_of_string "10.0") (bytes_of_string "5.0") []
                    10%float 5%float).
  { split; [reflexivity|]. split; [|repeat split; reflexivity].
    eexists. split; [reflexivity|]. split; reflexivity. }
  pose proof (valid_line_appends_sample float Float64.float_of_str
                Float64.fsub fresh 100%float [Recv (line "10.0,5.0")]
                100.5%float (bytes_of_string "10.0") (bytes_of_string "5.0")
                [] 10%float 5%float eq_refl Hpend) as H.
  cbv zeta in H. repeat split; apply H.
Defined.



Lemma stop_halts_appends_witness :
  let evs := [Recv (line "20.0,15.0"); Tick 101%float; Tick 102%float] in
  x_data (run64 evs (snd (stop_action one_sample))) = [0.5%float]
  /\ y2_data (run64 evs (snd (stop_action one_sample))) = [5%float]
  /\ is_running (run64 evs (snd (stop_action one_sample))) = false
  /\ after_pending (run64 evs (snd (stop_action one_sample))) = 1.
Proof.
  cbv zeta.
  pose proof (stop_halts_appends float Float64.float_of_str
                Float64.fsub one_sample
                [Recv (line "20.0,15.0"); Tick 101%float; Tick 102%float]
                eq_refl) as H.
  cbv zeta in H.
  destruct H as (_ & _ & _ & _ & _ & Hr & Hx & _ & Hy2 & Ha & _).
  split; [exact Hx|]. split; [exact Hy2|]. split; [exact Hr|exact Ha].
Defined.

(** C2, counterexample: Save and a filled-in form on the empty buffer of a
    fresh application, on a host on which nothing fails. Nothing is
    refused: success is reported, the INSERT is run, and the report is
    written with two empty plots. *)
Lemma export_empty_session_counterexample :
  let s := step64 Save fresh in
  let r := submit willing patient "2024-05-01 10:00:00" "2024-05-01 10:00" s in
  x_data s = [] /\ y1_data s = [] /\ y2_data s = []
  /\ fst r = inl tt
  /\ dialogs (snd r) = [ShowInfo_Success]
  /\ log (snd r) = []
  /\ inserts (snd r) = [(patient, "2024-05-01 10:00:00"%string)]
  /\ lookup "17_Ana_Lee.pdf" (files (snd r))
     = Some (PdfReport patient "2024-05-01 10:00" ([], []) ([], [])).
Proof. cbv zeta. repeat split; reflexivity. Qed.

Lemma export_copies_buffer_witness :
  let r := submit willing patient "2024-05-01 10:00:00" "2024-05-01 10:00"
                  (step64 Save one_sample) in
  lookup "17_Ana_Lee.pdf" (files (snd r))
  = Some (PdfReport patient "2024-05-01 10:00"
            ([0.5%float], [10%float]) ([0.5%float], [5%float]))
  /\ files (run64 [Clear; Start 300%float] (snd r)) = files (snd r).
Proof.
  cbv zeta.
  assert (Hf : all_fields patient = true) by (vm_compute; reflexivity).
  assert (Hal : aligned (step64 Save one_sample))
    by (split; vm_compute; reflexivity).
  pose proof (export_copies_buffer float Float64.float_of_str
                Float64.fsub willing (step64 Save one_sample) patient
                "2024-05-01 10:00:00" "2024-05-01 10:00" Hf eq_refl eq_refl
                Hal) as H.
  cbv zeta in H. destruct H as (_ & Hpdf & _ & _ & _ & _ & _ & Hframe).
  split.
  - vm_compute in Hpdf |- *. exact Hpdf.
  - apply Hframe. vm_compute. reflexivity.
Defined.

(** C8, counterexample: two lines decoded in one session while the wall
    clock is set back between the two ticks (110 s, then 105 s): the
    elapsed times are stored as 10 then 5. *)
Lemma elapsed_decreasing_counterexample :
  let evs := [Recv (line "1,1" ++ line "2,2"); Tick 110%float; Tick 105%float] in
  let s := run64 evs (step64 (Start 100%float) fresh) in
  forallb (fun e => negb (is_start e)) evs = true
  /\ x_data s = [10%float; 5%float]
  /\ y1_data s = [1%float; 2%float]
  /\ ~ StronglySorted Float64.fle (x_data s).
Proof.
  cbv zeta. do 3 (split; [reflexivity|]).
  change (~ StronglySorted Float64.fle [10%float; 5%float]).
  intros H. inversion H as [|? ? _ Hall]; subst.
  inversion Hall as [|? ? Hle _]; subst.
  unfold Float64.fle in Hle. vm_compute in Hle. discriminate Hle.
Qed.

Lemma elapsed_sorted_witness :
  let evs := [Recv (line "1,1" ++ line "2,2"); Tick 105%float; Tick 110%float] in
  x_data (run64 evs (step64 (Start 100%float) fresh)) = [5%float; 10%float]
  /\ StronglySorted Float64.fle
       (x_data (run64 evs (step64 (Start 100%float) fresh))).
Proof.
  cbv zeta. split; [reflexivity|].
  apply (elapsed_sorted float Float64.float_of_str Float64.fsub
           Float64.fle fresh 100%float
           [Recv (line "1,1" ++ line "2,2"); Tick 105%float; Tick 110%float]).
  - reflexivity.
  - repeat constructor.
  - intros a b [<-|[<-|[]]] [<-|[<-|[]]] Hle; try reflexivity.
    discriminate Hle.
Defined.

(** *** Scenarios for the further properties *)

Local Abbreviation parse64 := Float64.float_of_str.
Local Abbreviation started_with l :=
  (run64 [Recv l] (step64 (Start 100%float) fresh)).

Lemma tick_consumes_one_line_witness :
  let s := run64 [Recv (line "abc" ++ line "10.0,5.0")] one_sample in
  length (x_data (snd (tick64 101%float s))) <= 2
  /\ exists p', serial_port (snd (tick64 101%float s)) = Some p'
                /\ rx p' = line "10.0,5.0".
Proof.
  cbv zeta.
  pose proof (tick_consumes_one_line float parse64 Float64.fsub 101%float
                (run64 [Recv (line "abc" ++ line "10.0,5.0")] one_sample)
                (mkSerial true (line "abc" ++ line "10.0,5.0") ["A"%byte])
                eq_refl eq_refl eq_refl ltac:(discriminate)) as H.
  cbv zeta in H. destruct H as (_ & (p' & Hp' & _ & Hrx & _) & _ & Hlen).
  split; [exact Hlen|]. exists p'. split; [exact Hp'|].
  rewrite Hrx. reflexivity.
Defined.

Lemma buffer_append_only_witness :
  exists lx ly1 ly2,
    x_data (run64 [Recv (line "20.0,15.0"); Tick 101%float; Stop;
                   Tick 102%float] one_sample) = x_data one_sample ++ lx
    /\ y1_data (run64 [Recv (line "20.0,15.0"); Tick 101%float; Stop;
                       Tick 102%float] one_sample) = y1_data one_sample ++ ly1
    /\ y2_data (run64 [Recv (line "20.0,15.0"); Tick 101%float; Stop;
                       Tick 102%float] one_sample) = y2_data one_sample ++ ly2
    /\ length lx = length ly1 /\ length ly1 = length ly2 /\ length lx <= 2.
Proof.
  exact (buffer_append_only float parse64 Float64.fsub
           [Recv (line "20.0,15.0"); Tick 101%float; Stop; Tick 102%float]
           one_sample eq_refl).
Defined.

Lemma samples_of_current_session_witness :
  exists t t0,
    start_time one_sample = Some t0
    /\ In t [100.5%float] /\ 0.5%float = Float64.fsub t t0.
Proof.
  apply (samples_of_current_session float parse64 Float64.fsub
           [Start 100%float; Recv (line "10.0,5.0"); Tick 100.5%float] [] []
           0.5%float).
  left. reflexivity.
Defined.

Lemma start_keeps_pending_input_witness :
  let s := run64 [Recv (line "10.0,5.0")] (step64 Stop one_sample) in
  x_data s = [0.5%float]
  /\ x_data (snd (tick64 200.5%float (snd (start_action 200%float s))))
     = [0.5%float]
  /\ y2_data (snd (tick64 200.5%float (snd (start_action 200%float s))))
     = [5%float].
Proof.
  cbv zeta. split; [reflexivity|].
  pose proof (start_keeps_pending_input float parse64 Float64.fsub
                200%float 200.5%float
                (run64 [Recv (line "10.0,5.0")] (step64 Stop one_sample))
                (mkSerial true (line "10.0,5.0") ["A"%byte])
                (bytes_of_string "10.0") (bytes_of_string "5.0") []
                10%float 5%float eq_refl eq_refl eq_refl eq_refl eq_refl
                eq_refl eq_refl) as H.
  cbv zeta in H. destruct H as (_ & Hx & _ & Hy2). split; [exact Hx|exact Hy2].
Defined.

Lemma start_keeps_labels_witness :
  let s1 := snd (tick64 100.5%float (started_with (line "10.0,5.0"))) in
  x_data (snd (start_action 200%float s1)) = []
  /\ y1_label (snd (start_action 200%float s1)) = LabelValue 10%float
  /\ y2_label (snd (start_action 200%float s1)) = LabelValue 5%float.
Proof.
  cbv zeta.
  assert (Hpend : pending_sample parse64 (started_with (line "10.0,5.0"))
                    (bytes_of_string "10.0") (bytes_of_string "5.0") []
                    10%float 5%float).
  { split; [reflexivity|]. split; [|repeat split; reflexivity].
    eexists. split; [reflexivity|]. split; reflexivity. }
  pose proof (start_keeps_labels float parse64 Float64.fsub 100.5%float
                200%float (started_with (line "10.0,5.0"))
                (bytes_of_string "10.0") (bytes_of_string "5.0") []
                10%float 5%float 100%float Hpend eq_refl) as H.
  cbv zeta in H. destruct H as (Hx & _ & _ & _ & _ & Hl1 & Hl2 & _).
  split; [exact Hx|]. split; [exact Hl1|exact Hl2].
Defined.

Lemma submit_missing_field_witness :
  let f := mkForm "Ana" "Lee" 0 "17" "Female" "Sam" "Roe" "General" "Main St" in
  let r := submit willing f "2024-05-01 10:00:00" "2024-05-01 10:00"
                  (step64 Save one_sample) in
  inserts (snd r) = [] /\ files (snd r) = []
  /\ entry_windows (snd r) = 1
  /\ dialogs (snd r) = [ShowError_SaveData ValueError_fields].
Proof.
  cbv zeta.
  pose proof (submit_missing_field float willing
                (mkForm "Ana" "Lee" 0 "17" "Female" "Sam" "Roe" "General"
                        "Main St")
                "2024-05-01 10:00:00" "2024-05-01 10:00"
                (step64 Save one_sample) (or_introl eq_refl)) as H.
  cbv zeta in H. destruct H as (_ & _ & Hd & Hdb & Hf & Hw & _).
  split; [exact Hdb|]. split; [exact Hf|]. split; [exact Hw|exact Hd].
Defined.

Lemma submit_stores_row_and_files_witness :
  let r := submit willing patient "2024-05-01 10:00:00" "2024-05-01 10:00"
                  (step64 Save one_sample) in
  inserts (snd r) = [(patient, "2024-05-01 10:00:00"%string)]
  /\ entry_windows (snd r) = 0
  /\ lookup "flow.png" (files (snd r))
     = Some (PlotImage [0.5%float] [10%float]).
Proof.
  cbv zeta.
  assert (Hf : all_fields patient = true) by (vm_compute; reflexivity).
  assert (Hal : aligned (step64 Save one_sample))
    by (split; vm_compute; reflexivity).
  pose proof (submit_stores_row_and_files float willing patient
                "2024-05-01 10:00:00" "2024-05-01 10:00"
                (step64 Save one_sample) Hf eq_refl eq_refl Hal) as H.
  cbv zeta in H. destruct H as (Hdb & Hw & Hfiles & _).
  split; [exact Hdb|]. split; [exact Hw|]. rewrite Hfiles.
  vm_compute. reflexivity.
Defined.

(** Two different patients whose report names coincide: id 1 with first
    name 2_3, and id 1_2 with first name 3. *)
Lemma report_overwritten_witness :
  let f1 := mkForm "2_3" "Lee" 40 "1" "Female" "Sam" "Roe" "General" "Main St" in
  let f2 := mkForm "3" "Lee" 52 "1_2" "Male" "Sam" "Roe" "General" "Main St" in
  let s1 := snd (submit willing f1 "2024-05-01 10:00:00" "2024-05-01 10:00"
                        one_sample) in
  let s3 := snd (submit willing f2 "2024-05-02 09:00:00" "2024-05-02 09:00"
                        (run64 [Clear] s1)) in
  f1 <> f2
  /\ lookup "1_2_3_Lee.pdf" (files s1)
     = Some (PdfReport f1 "2024-05-01 10:00"
               ([0.5%float], [10%float]) ([0.5%float], [5%float]))
  /\ lookup "1_2_3_Lee.pdf" (files s3)
     = Some (PdfReport f2 "2024-05-02 09:00" ([], []) ([], []))
  /\ length (inserts s3) = 2.
Proof.
  cbv zeta. split; [discriminate|].
  assert (Hf1 : all_fields (mkForm "2_3" "Lee" 40 "1" "Female" "Sam" "Roe"
                              "General" "Main St") = true)
    by (vm_compute; reflexivity).
  assert (Hf2 : all_fields (mkForm "3" "Lee" 52 "1_2" "Male" "Sam" "Roe"
                              "General" "Main St") = true)
    by (vm_compute; reflexivity).
  assert (Hal : aligned one_sample) by (split; vm_compute; reflexivity).
  pose proof (report_overwritten float Float64.float_of_str Float64.fsub
                one_sample willing willing
                (mkForm "2_3" "Lee" 40 "1" "Female" "Sam" "Roe" "General"
                        "Main St")
                (mkForm "3" "Lee" 52 "1_2" "Male" "Sam" "Roe" "General"
                        "Main St")
                "2024-05-01 10:00:00" "2024-05-01 10:00"
                "2024-05-02 09:00:00" "2024-05-02 09:00" [Clear]
                Hf1 eq_refl eq_refl Hf2 eq_refl eq_refl Hal eq_refl eq_refl)
    as H.
  cbv zeta in H. destruct H as (H1 & H3 & Hdb).
  split; [vm_compute in H1 |- *; exact H1|].
  split; [vm_compute in H3 |- *; exact H3|].
  rewrite Hdb. reflexivity.
Defined.

(** The hospital name "<b>General", whose bold tag is never closed: the
    paragraph parser rejects it. *)
Lemma pdf_failure_is_swallowed_witness :
  let f := mkForm "Ana" "Lee" 40 "17" "Female" "Sam" "Roe" "<b>General"
                  "Main St" in
  let h := mkHost true true true true false true true None in
  let r := submit h f "2024-05-01 10:00:00" "2024-05-01 10:00" one_sample in
  dialogs (snd r) = [ShowInfo_Success]
  /\ inserts (snd r) = [(f, "2024-05-01 10:00:00"%string)]
  /\ files (snd r)
     = [("volume.png"%string, PlotImage [0.5%float] [5%float]);
        ("flow.png"%string, PlotImage [0.5%float] [10%float])]
  /\ log (snd r) = [PdfError (ValueError_markup "<b>General")].
Proof.
  cbv zeta.
  assert (Hal : aligned one_sample) by (split; vm_compute; reflexivity).
  pose proof (pdf_failure_is_swallowed float
                (mkHost true true true true false true true None)
                (mkForm "Ana" "Lee" 40 "17" "Female" "Sam" "Roe" "<b>General"
                        "Main St")
                "2024-05-01 10:00:00" "2024-05-01 10:00" one_sample
                (ValueError_markup "<b>General")
                eq_refl eq_refl eq_refl eq_refl Hal eq_refl eq_refl eq_refl
                eq_refl) as H.
  cbv zeta in H. destruct H as (_ & Hd & Hi & _ & Hfiles & Hlog & _).
  split; [exact Hd|]. split; [exact Hi|]. split; [exact Hfiles|exact Hlog].
Defined.

Lemma comma_count_decides_witness :
  let s := run64 [Recv (line "1,2,3")] one_sample in
  log (snd (tick64 101%float s)) = []
  /\ x_data (snd (tick64 101%float s)) = [0.5%float].
Proof.
  cbv zeta.
  pose proof (comma_count_decides float parse64 Float64.fsub 101%float
                (run64 [Recv (line "1,2,3")] one_sample)
                (mkSerial true (line "1,2,3") ["A"%byte])
                (line "1,2,3") [] (str_of_string "1,2,3" ++ [10%N])
                eq_refl eq_refl eq_refl ltac:(discriminate) eq_refl eq_refl)
    as H.
  cbv zeta in H. destruct H as [H _].
  destruct (H ltac:(discriminate)) as (Hlog & _ & Hx & _).
  split; [exact Hlog|exact Hx].
Defined.

Lemma crlf_line_appends_sample_witness :
  let s := started_with (bytes_of_string "10.0,5.0" ++ ["013"%byte; newline]) in
  x_data (snd (tick64 100.5%float s)) = [0.5%float]
  /\ y1_data (snd (tick64 100.5%float s)) = [10%float]
  /\ y2_data (snd (tick64 100.5%float s)) = [5%float].
Proof.
  cbv zeta.
  pose proof (crlf_line_appends_sample float parse64 Float64.fsub 100.5%float
                (started_with (bytes_of_string "10.0,5.0"
                               ++ ["013"%byte; newline]))
                (mkSerial true (bytes_of_string "10.0,5.0"
                                ++ ["013"%byte; newline]) ["A"%byte])
                (bytes_of_string "10.0") (bytes_of_string "5.0") []
                10%float 5%float 100%float
                eq_refl eq_refl eq_refl eq_refl eq_refl eq_refl eq_refl
                eq_refl eq_refl) as H.
  cbv zeta in H. destruct H as (_ & Hx & Hy1 & Hy2 & _).
  split; [exact Hx|]. split; [exact Hy1|exact Hy2].
Defined.

(** The lines "10.0,5.0" and "20.0,15.0" read by two ticks of a running
    session. *)
Lemma queued_lines_in_order_witness :
  let s := started_with (line "10.0,5.0" ++ line "20.0,15.0") in
  x_data (run64 [Tick 100.5%float; Tick 101%float] s) = [0.5%float; 1%float]
  /\ y1_data (run64 [Tick 100.5%float; Tick 101%float] s)
     = [10%float; 20%float]
  /\ y2_data (run64 [Tick 100.5%float; Tick 101%float] s)
     = [5%float; 15%float].
Proof.
  cbv zeta.
  assert (Hv : Forall2 (valid_fields parse64)
                 [(bytes_of_string "10.0", bytes_of_string "5.0");
                  (bytes_of_string "20.0", bytes_of_string "15.0")]
                 [(10%float, 5%float); (20%float, 15%float)]).
  { repeat constructor. }
  pose proof (queued_lines_in_order float parse64 Float64.fsub _ _ Hv
                [100.5%float; 101%float]
                (started_with (line "10.0,5.0" ++ line "20.0,15.0"))
                (mkSerial true (line "10.0,5.0" ++ line "20.0,15.0")
                          ["A"%byte])
                100%float [] 0 eq_refl eq_refl eq_refl eq_refl eq_refl
                eq_refl eq_refl) as H.
  cbv zeta in H. destruct H as (Hx & Hy1 & Hy2 & _).
  split; [exact Hx|]. split; [exact Hy1|exact Hy2].
Defined.
